(** * FRA Atlas client glue: token store, API client interceptor, analysis demo

    A shallow embedding of the three client-side JavaScript files of the
    repository:

    - [src/frontend/src/hooks/useAuth.js]  (the token store, module [TokenStore]);
    - the axios client with its request interceptor  (module [ApiClient]);
    - the [analyzeLocation] / [displayResults] demo script  (module [Analysis]).

    The host environment these files call into (ECMAScript's [parseFloat],
    [Number::toString], [ToString], [JSON.stringify], template literals,
    the Web Storage API, [fetch], the DOM and the console) is modelled in
    the modules [Str], [Number], [Js], [Json] and [Web], following ECMA-262
    and the WHATWG documents where the program depends on them. The
    properties come last, one section per file of the repository. *)

From Stdlib Require Import ZArith String Ascii List Bool Lia DecimalString.
From Stdlib Require Import Floats.SpecFloat.
From stdpp Require Import base gmap strings list.

Local Open Scope string_scope.
Local Open Scope Z_scope.

(** ** Strings

    A JavaScript string is a sequence of code units; the model keeps the
    code units below 256, which covers every literal of the program. *)
Module Str.

(** The double quote character, as a one-character string. *)
Definition dq : string := String (ascii_of_nat 34) EmptyString.

(** The backslash, as a one-character string. *)
Definition bs : string := String (ascii_of_nat 92) EmptyString.

(** Line feed, as a one-character string (template literals keep their line breaks). *)
Definition nl : string := String (ascii_of_nat 10) EmptyString.

Definition code (c : ascii) : Z := Z.of_nat (nat_of_ascii c).

Definition is_digit (c : ascii) : bool := (48 <=? code c) && (code c <=? 57).

(** [StrWhiteSpaceChar]: TAB, LF, VT, FF, CR, SP and NBSP. *)
Definition is_white_space (c : ascii) : bool :=
  let n := code c in
  ((9 <=? n) && (n <=? 13)) || (n =? 32) || (n =? 160).

(** [TrimString(s, start)]. *)
Fixpoint trim_start (s : string) : string :=
  match s with
  | String c r => if is_white_space c then trim_start r else s
  | EmptyString => s
  end.

(** The longest run of decimal digits at the head of [s], as digit values
    (most significant first), and the rest of [s]. *)
Fixpoint span_digits (s : string) : list Z * string :=
  match s with
  | String c r =>
      if is_digit c
      then let '(ds, rest) := span_digits r in ((code c - 48) :: ds, rest)
      else ([], s)
  | EmptyString => ([], s)
  end.

(** The value of a digit sequence read in base ten. *)
Definition digits_value (ds : list Z) : Z :=
  fold_left (fun acc d => 10 * acc + d) ds 0.

(** An optional sign at the head of [s]: [true] for a minus. *)
Definition take_sign (s : string) : bool * string :=
  match s with
  | String "-" r => (true, r)
  | String "+" r => (false, r)
  | _ => (false, s)
  end.

(** Does [s] begin with [p]? *)
Fixpoint starts_with (p s : string) : bool :=
  match p, s with
  | EmptyString, _ => true
  | String a p', String b s' => if Ascii.eqb a b then starts_with p' s' else false
  | String _ _, EmptyString => false
  end.

(** A non-negative integer in decimal notation. *)
Definition dec (n : N) : string := NilZero.string_of_uint (N.to_uint n).

Fixpoint repeat_char (c : ascii) (n : nat) : string :=
  match n with
  | O => EmptyString
  | S n' => String c (repeat_char c n')
  end.

(** The first [n] code units of [s] and what follows them. *)
Fixpoint split_at (n : nat) (s : string) : string * string :=
  match n, s with
  | S n', String c r => let '(a, b) := split_at n' r in (String c a, b)
  | _, _ => (EmptyString, s)
  end.

(** Concatenation of a list of strings ([Array.prototype.join] with the
    empty separator, on strings). *)
Definition concat_all (l : list string) : string :=
  fold_right String.append EmptyString l.

End Str.

(** ** Numbers

    The Number type is IEEE 754 binary64; [spec_float] values with
    [prec = 53] and [emax = 1024]. *)
Module Number.

Definition prec : Z := 53.
Definition emax : Z := 1024.

Definition number : Type := spec_float.

Definition NaN : number := S754_nan.

Definition is_nan (x : number) : bool :=
  match x with S754_nan => true | _ => false end.

Definition is_finite (x : number) : bool :=
  match x with
  | S754_zero _ | S754_finite _ _ _ => true
  | S754_infinity _ | S754_nan => false
  end.

(** The double nearest to [(-1)^neg * m * 10^e] for [m >= 0], ties to even
    (the rounding of [StringNumericValue]). *)
Definition of_decimal (neg : bool) (m e : Z) : number :=
  if m =? 0 then S754_zero neg
  else if 0 <=? e then
    binary_normalize prec emax (cond_Zopp neg (m * 10 ^ e)) 0 neg
  else
    let '(q, e', l) := SFdiv_core_binary prec emax m 0 (10 ^ (- e)) 0 in
    binary_round_aux prec emax neg q e' l.

(** [parseFloat(string)] on a string argument: the longest prefix of the
    trimmed input that is a [StrDecimalLiteral], or [NaN] when there is none. *)
Definition parseFloat (input : string) : number :=
  let '(neg, s1) := Str.take_sign (Str.trim_start input) in
  if Str.starts_with "Infinity" s1 then S754_infinity neg
  else
    let '(ip, s2) := Str.span_digits s1 in
    let '(fp, s3) :=
      match s2 with
      | String "." r => Str.span_digits r
      | _ => ([], s2)
      end in
    match (ip ++ fp)%list with
    | [] => NaN
    | ds =>
        let ex :=
          match s3 with
          | String c r =>
              if Ascii.eqb c "e" || Ascii.eqb c "E" then
                let '(eneg, r1) := Str.take_sign r in
                let '(ed, _) := Str.span_digits r1 in
                cond_Zopp eneg (Str.digits_value ed)
              else 0
          | EmptyString => 0
          end in
        of_decimal neg (Str.digits_value ds) (ex - Z.of_nat (length fp))
    end.

(** Can the code unit [c] begin a [StrDecimalLiteral], or be skipped
    before one? A sign, a digit, a dot, the I of Infinity, white space. *)
Definition numeric_start (c : ascii) : bool :=
  Str.is_digit c || Str.is_white_space c ||
  Ascii.eqb c "+" || Ascii.eqb c "-" || Ascii.eqb c "." || Ascii.eqb c "I".

(** *** [Number::toString] (radix 10) *)

(** A positive finite double [m * 2^e] as an exact fraction. *)
Definition fraction (m : positive) (e : Z) : Z * Z :=
  if 0 <=? e then (Zpos m * 2 ^ e, 1) else (Zpos m, 2 ^ (- e)).

(** [a/b < 10^n] *)
Definition below_pow10 (ab : Z * Z) (n : Z) : bool :=
  let '(a, b) := ab in
  if 0 <=? n then a <? 10 ^ n * b else a * 10 ^ (- n) <? b.

(** The least [n >= from] with [a/b < 10^n]. *)
Fixpoint decade (fuel : nat) (ab : Z * Z) (from : Z) : Z :=
  match fuel with
  | O => from
  | S f => if below_pow10 ab from then from else decade f ab (from + 1)
  end.

(** A lower estimate of the decade of [a/b]: [1233/4096] approximates
    [log10 2], and [a/b] lies between [2^(l-1)] and [2^(l+1)] for
    [l = log2 a - log2 b]. *)
Definition decade_start (ab : Z * Z) : Z :=
  let '(a, b) := ab in (Z.log2 a - Z.log2 b - 1) * 1233 / 4096.

(** [a/b * 10^j] as a fraction. *)
Definition scale10 (ab : Z * Z) (j : Z) : Z * Z :=
  let '(a, b) := ab in
  if 0 <=? j then (a * 10 ^ j, b) else (a, b * 10 ^ (- j)).

(** The [k]-digit candidates around [x = m * 2^e] in the decade [n]: the
    one that both reads back as [x] and lies closest to it (the even one
    on a tie), with its decimal exponent. *)
Definition shortest_at (x : number) (ab : Z * Z) (n k : Z) : option (Z * Z) :=
  let '(a, b) := scale10 ab (k - n) in
  let lo := a / b in
  let hi := lo + 1 in
  let reads s := SFeqb (of_decimal false s (n - k)) x in
  let lo_ok := reads lo in
  let hi_ok := reads hi in
  let up := if hi =? 10 ^ k then (10 ^ (k - 1), n + 1) else (hi, n) in
  match lo_ok, hi_ok with
  | true, true =>
      match (a - lo * b) ?= (hi * b - a) with
      | Lt => Some (lo, n)
      | Gt => Some up
      | Eq => if Z.even lo then Some (lo, n) else Some up
      end
  | true, false => Some (lo, n)
  | false, true => Some up
  | false, false => None
  end.

(** The smallest [k] from [k] on with a candidate, and that candidate:
    [(s, n, k)] of the specification's step 5. *)
Fixpoint shortest (fuel : nat) (x : number) (ab : Z * Z) (n k : Z) : Z * Z * Z :=
  match fuel with
  | O => (fst (scale10 ab (k - n)) / snd (scale10 ab (k - n)), n, k)
  | S f =>
      match shortest_at x ab n k with
      | Some (s, n') => (s, n', k)
      | None => shortest f x ab n (k + 1)
      end
  end.

(** Steps 6 to 10: the digits of [s] laid out for the exponent [n]. *)
Definition layout (s n k : Z) : string :=
  let ds := Str.dec (Z.to_N s) in
  if (k <=? n) && (n <=? 21) then
    ds +:+ Str.repeat_char "0" (Z.to_nat (n - k))
  else if (0 <? n) && (n <=? 21) then
    let '(i, f) := Str.split_at (Z.to_nat n) ds in i +:+ "." +:+ f
  else if (-6 <? n) && (n <=? 0) then
    "0." +:+ Str.repeat_char "0" (Z.to_nat (- n)) +:+ ds
  else
    let sign := if 0 <=? n - 1 then "+" else "-" in
    let ex := Str.dec (Z.abs_N (n - 1)) in
    if k =? 1 then ds +:+ "e" +:+ sign +:+ ex
    else
      let '(i, f) := Str.split_at 1 ds in
      i +:+ "." +:+ f +:+ "e" +:+ sign +:+ ex.

Definition to_string (x : number) : string :=
  match x with
  | S754_nan => "NaN"
  | S754_zero _ => "0"
  | S754_infinity neg => if neg then "-Infinity" else "Infinity"
  | S754_finite neg m e =>
      let ab := fraction m e in
      let n := decade 8 ab (decade_start ab) in
      let '(s, n', k) := shortest 17 (S754_finite false m e) ab n 1 in
      (if neg then "-" else "") +:+ layout s n' k
  end.

End Number.

(** ** Language values, completions, and the data trees of JSON *)
Module Js.

(** What a [throw] carries in this program: the built-in [TypeError] and
    [SyntaxError] (their messages are engine-specific and left out), and
    [new Error(message)]. *)
Inductive exn :=
| TypeError
| SyntaxError
| Error (message : string).

(** A completion: normal with a value, or abrupt with a thrown value.
    For an [async] function, [Normal] is the fulfilled promise and
    [Throw] the rejected one. *)
Inductive completion (A : Type) :=
| Normal (a : A)
| Throw (e : exn).
Arguments Normal {A} a.
Arguments Throw {A} e.

(** Primitive values. Objects are absent: their coercions run methods of
    the object. *)
Inductive prim :=
| PUndefined
| PNull
| PBoolean (b : bool)
| PNumber (x : Number.number)
| PBigInt (n : Z)
| PString (s : string)
| PSymbol (description : option string).

(** [ToString] on a primitive. *)
Definition ToString (v : prim) : completion string :=
  match v with
  | PUndefined => Normal "undefined"
  | PNull => Normal "null"
  | PBoolean b => Normal (if b then "true" else "false")
  | PNumber x => Normal (Number.to_string x)
  | PBigInt n => Normal ((if n <? 0 then "-" else "") +:+ Str.dec (Z.abs_N n))
  | PString s => Normal s
  | PSymbol _ => Throw TypeError
  end.

(** [ToBoolean] on what [Storage.getItem] returns: [null] and the empty
    string are falsy. *)
Definition truthy (v : option string) : bool :=
  match v with
  | Some (String _ _) => true
  | Some EmptyString | None => false
  end.

(** [ToString] on what [Storage.getItem] returns, as a template literal
    substitutes it. *)
Definition ToString_nullable (v : option string) : string :=
  match v with
  | Some s => s
  | None => "null"
  end.

End Js.

Module Json.
Import Js.

(** Data trees: what [JSON.parse] returns and what an object literal with
    number fields builds. In [JObject] the first binding of a key is the
    property's value. *)
#[warnings="-register-all"]
Inductive json :=
| JNull
| JBoolean (b : bool)
| JNumber (x : Number.number)
| JString (s : string)
| JArray (items : list json)
| JObject (fields : list (string * json)).

(** The own property [k] of a field list. *)
Fixpoint field (k : string) (fields : list (string * json)) : option json :=
  match fields with
  | [] => None
  | (k', v) :: rest => if String.eqb k k' then Some v else field k rest
  end.

(** [v.k] for a value that is [undefined] ([None]) or a data tree, and a
    key [k] that no built-in prototype defines (the five keys
    [displayResults] reads are such keys): a [TypeError] on [undefined]
    and [null], the own property on an object, [undefined] elsewhere. *)
Definition get (v : option json) (k : string) : completion (option json) :=
  match v with
  | None | Some JNull => Throw TypeError
  | Some (JObject fields) => Normal (field k fields)
  | Some _ => Normal None
  end.

(** [sep]-separated concatenation. *)
Fixpoint join (sep : string) (l : list string) : string :=
  match l with
  | [] => ""
  | [x] => x
  | x :: rest => x +:+ sep +:+ join sep rest
  end.

(** [f] on each element in order, stopping at the first throw. *)
Fixpoint map_completion {A B : Type} (f : A -> completion B) (l : list A)
  : completion (list B) :=
  match l with
  | [] => Normal []
  | x :: rest =>
      match f x with
      | Throw e => Throw e
      | Normal y =>
          match map_completion f rest with
          | Throw e => Throw e
          | Normal ys => Normal (y :: ys)
          end
      end
  end.

(** [ToString] on a data tree. An array prints its elements joined by
    commas, with [null] elements empty ([Array.prototype.join]). A plain
    object goes through [OrdinaryToPrimitive]: with an own property
    [toString] (a data value, so not callable) neither [toString] nor
    [valueOf] yields a primitive and the conversion throws a
    [TypeError]; without one, [Object.prototype.toString] gives
    [[object Object]]. *)
Fixpoint to_string (j : json) : completion string :=
  match j with
  | JNull => Normal "null"
  | JBoolean b => Normal (if b then "true" else "false")
  | JNumber x => Normal (Number.to_string x)
  | JString s => Normal s
  | JArray items =>
      match (fix elements (l : list json) : completion (list string) :=
               match l with
               | [] => Normal []
               | e :: rest =>
                   match (match e with JNull => Normal "" | _ => to_string e end) with
                   | Throw x => Throw x
                   | Normal t =>
                       match elements rest with
                       | Throw x => Throw x
                       | Normal ts => Normal (t :: ts)
                       end
                   end
               end) items with
      | Throw x => Throw x
      | Normal ts => Normal (join "," ts)
      end
  | JObject fields =>
      match field "toString" fields with
      | Some _ => Throw TypeError
      | None => Normal "[object Object]"
      end
  end.

(** The substitution [${v}] of a template literal. *)
Definition subst (v : option json) : completion string :=
  match v with
  | None => Normal "undefined"
  | Some j => to_string j
  end.

(** [v.map(f)]: [Array.prototype.map] when [v] is an array, calling [f]
    on the elements in order; on anything else [v.map] is not callable
    (or [v] has no properties at all) and the call throws a
    [TypeError]. *)
Definition call_map {B : Type} (v : option json) (f : json -> completion B)
  : completion (list B) :=
  match v with
  | Some (JArray items) => map_completion f items
  | _ => Throw TypeError
  end.

(** *** [JSON.stringify] *)

Definition hex_digit (n : Z) : ascii :=
  ascii_of_nat (Z.to_nat (if n <? 10 then 48 + n else 87 + n)).

(** One code unit inside [QuoteJSONString]. *)
Definition quote_char (c : ascii) : string :=
  let n := Str.code c in
  if n =? 34 then Str.bs +:+ Str.dq
  else if n =? 92 then Str.bs +:+ Str.bs
  else if n =? 8 then Str.bs +:+ "b"
  else if n =? 9 then Str.bs +:+ "t"
  else if n =? 10 then Str.bs +:+ "n"
  else if n =? 12 then Str.bs +:+ "f"
  else if n =? 13 then Str.bs +:+ "r"
  else if n <? 32 then
    Str.bs +:+ "u00" +:+ String (hex_digit (n / 16)) (String (hex_digit (n mod 16)) "")
  else String c "".

Fixpoint quote_body (s : string) : string :=
  match s with
  | EmptyString => ""
  | String c r => quote_char c +:+ quote_body r
  end.

Definition quote (s : string) : string := Str.dq +:+ quote_body s +:+ Str.dq.

(** A number serialises as its [ToString] when finite, as [null]
    otherwise ([SerializeJSONProperty], step for Number). *)
Definition stringify_number (x : Number.number) : string :=
  if Number.is_finite x then Number.to_string x else "null".

(** [JSON.stringify(value)] with no replacer and no indentation. *)
Fixpoint stringify (j : json) : string :=
  match j with
  | JNull => "null"
  | JBoolean b => if b then "true" else "false"
  | JNumber x => stringify_number x
  | JString s => quote s
  | JArray items => "[" +:+ join "," (map stringify items) +:+ "]"
  | JObject fields =>
      "{" +:+ join "," (map (fun kv => quote (fst kv) +:+ ":" +:+ stringify (snd kv)) fields) +:+ "}"
  end.

End Json.

(** ** The browser: storage, document, console, network *)
Module Web.
Import Js Json.

(** *** Web Storage

    A storage area maps keys to string values. The quota a user agent may
    impose on it is not modelled: the area is unbounded. *)
Abbreviation storage := (gmap string string).

(** [getItem(key)]: the value, or [null] ([None]). *)
Definition getItem (key : string) (ls : storage) : option string := ls !! key.

(** [setItem(key, value)]: the value argument is a [DOMString], so it is
    converted with [ToString] first; a conversion that throws leaves the
    area as it was. *)
Definition setItem (key : string) (value : prim) (ls : storage) : completion unit * storage :=
  match ToString value with
  | Normal s => (Normal tt, <[key := s]> ls)
  | Throw e => (Throw e, ls)
  end.

(** [removeItem(key)]: nothing happens when the key is absent. *)
Definition removeItem (key : string) (ls : storage) : storage := delete key ls.

(** *** The document: elements by identifier, with their [innerHTML]

    For each identifier the document records the markup last assigned
    to that element's [innerHTML]: what the script gave the setter. The
    parsing of that markup, and the descendants the setter removes and
    creates with it, are not modelled; nothing below is stated about
    elements inside the container. *)
Record element := { innerHTML : string }.

Abbreviation document := (gmap string element).

(** *** The console *)
Inductive logged :=
| LText (s : string)
| LData (j : json)
| LExn (e : exn).

Inductive level := LevelLog | LevelError.

Record entry := { entry_level : level; entry_args : list logged }.

(** *** The network *)
Record request := {
  url : string;
  method : string;
  headers : list (string * string);
  body : string
}.

(** A response: its status, and what [response.json()] settles to (the
    parsed body, or the rejection when the body is not JSON). *)
Record response := {
  status : N;
  json_body : completion json
}.

(** [response.ok]: the status is in the range 200 to 299. *)
Definition ok (r : response) : bool := (200 <=? status r)%N && (status r <=? 299)%N.

(** What [fetch] settles to for a request: a response, or a rejection. *)
Definition network : Type := request -> completion response.

(** The part of the browser the demo script acts on. *)
Record world := {
  doc : document;
  console : list entry;
  sent : list request
}.

(** Computations over the world that may throw. *)
Definition M (A : Type) : Type := world -> completion A * world.

Definition ret {A : Type} (a : A) : M A := fun w => (Normal a, w).

Definition throw {A : Type} (e : exn) : M A := fun w => (Throw e, w).

Definition bind {A B : Type} (m : M A) (k : A -> M B) : M B :=
  fun w =>
    match m w with
    | (Normal a, w') => k a w'
    | (Throw e, w') => (Throw e, w')
    end.

(** [try { body } catch (error) { handler }] *)
Definition try_catch {A : Type} (body : M A) (handler : exn -> M A) : M A :=
  fun w =>
    match body w with
    | (Normal a, w') => (Normal a, w')
    | (Throw e, w') => handler e w'
    end.

(** A completion computed without touching the world. *)
Definition lift {A : Type} (c : completion A) : M A := fun w => (c, w).

(** [document.getElementById(id)] *)
Definition getElementById (id : string) : M (option element) :=
  fun w => (Normal (doc w !! id), w).

(** [element.innerHTML = html], for the element with identifier [id]. *)
Definition set_innerHTML (id : string) (html : string) : M unit :=
  fun w =>
    (Normal tt,
     {| doc := <[id := {| innerHTML := html |}]> (doc w);
        console := console w;
        sent := sent w |}).

Definition console_write (l : level) (args : list logged) : M unit :=
  fun w =>
    (Normal tt,
     {| doc := doc w;
        console := (console w ++ [{| entry_level := l; entry_args := args |}])%list;
        sent := sent w |}).

(** [console.log(...args)] *)
Definition console_log : list logged -> M unit := console_write LevelLog.

(** [console.error(...args)] *)
Definition console_error : list logged -> M unit := console_write LevelError.

(** [await fetch(url, init)]: the request goes out once, and the network
    settles it. *)
Definition fetch (net : network) (r : request) : M response :=
  fun w =>
    (net r,
     {| doc := doc w; console := console w; sent := (sent w ++ [r])%list |}).

End Web.

Declare Scope js_scope.
Delimit Scope js_scope with js.
Notation "'let*' x ':=' m 'in' k" := (Web.bind m (fun x => k))
  (at level 10, x name, m at level 100, k at level 200) : js_scope.
Notation "m ';;' k" := (Web.bind m (fun _ => k))
  (at level 100, k at level 200, right associativity) : js_scope.

(** ** [useAuth.js]: the token store *)
Module TokenStore.
Import Js Web.

(** The storage key all three functions use. *)
Definition fra_token : string := "fra_token".

(** [const setToken = useCallback((token) => {
       localStorage.setItem("fra_token", token); }, [])] *)
Definition setToken (token : prim) (ls : storage) : completion unit * storage :=
  setItem fra_token token ls.

(** [const clearToken = useCallback(() => {
       localStorage.removeItem("fra_token"); }, [])] *)
Definition clearToken (ls : storage) : completion unit * storage :=
  (Normal tt, removeItem fra_token ls).

(** [const getToken = () => localStorage.getItem("fra_token")] *)
Definition getToken (ls : storage) : option string := getItem fra_token ls.

(** [export default function useAuth()]: the hook returns the three
    functions ([useCallback] returns the function it is given). *)
Record auth := {
  auth_setToken : prim -> storage -> completion unit * storage;
  auth_clearToken : storage -> completion unit * storage;
  auth_getToken : storage -> option string
}.

Definition useAuth : auth :=
  {| auth_setToken := setToken; auth_clearToken := clearToken; auth_getToken := getToken |}.

(** The calls a client of the hook can make on the store. *)
Inductive call :=
| CallSet (token : prim)
| CallClear.

(** The storage area after one call (whether it returned or threw). *)
Definition after (c : call) (ls : storage) : storage :=
  match c with
  | CallSet token => snd (setToken token ls)
  | CallClear => snd (clearToken ls)
  end.

(** The storage area after a sequence of calls, oldest first. *)
Definition run (calls : list call) (ls : storage) : storage :=
  fold_left (fun acc c => after c acc) calls ls.

(** A [setToken] call that returns: its argument has a string form. *)
Definition stores (c : call) : bool :=
  match c with
  | CallSet token => match ToString token with Normal _ => true | Throw _ => false end
  | CallClear => false
  end.

Definition is_clear (c : call) : bool :=
  match c with CallClear => true | CallSet _ => false end.

(** The calls made since the last [clearToken] of the sequence (all of
    them when it has none), oldest first. *)
Definition since_clear (calls : list call) : list call :=
  fold_left (fun acc c => if is_clear c then [] else (acc ++ [c])%list) calls [].

End TokenStore.

(** ** The API client: the request interceptor of the axios instance *)
Module ApiClient.
Import Js Web.

(** Objects live in a heap and are passed by reference: the interceptor
    receives the request config axios built and writes into the headers
    object the config points to. *)
Abbreviation loc := positive.

Inductive val :=
| Prim (p : prim)
| Ref (l : loc).

Abbreviation object := (gmap string val).

Abbreviation heap := (gmap loc object).

(** What the interceptor reads and writes: the heap and [localStorage]. *)
Record state := {
  objects : heap;
  localStorage : storage
}.

(** [target.key], for a key no built-in prototype defines. *)
Definition get_property (target : val) (key : string) (h : heap) : completion val :=
  match target with
  | Ref l =>
      match h !! l with
      | Some o => Normal (default (Prim PUndefined) (o !! key))
      | None => Throw TypeError
      end
  | Prim PUndefined | Prim PNull => Throw TypeError
  | Prim _ => Normal (Prim PUndefined)
  end.

(** [target.key = v] in strict code (the file is an ES module): a
    [TypeError] unless [target] is an object. Objects are taken to be
    extensible with writable properties, as the config and headers
    objects axios builds are; a frozen object is not modelled. *)
Definition set_property (target : val) (key : string) (v : val) (h : heap)
  : completion unit * heap :=
  match target with
  | Ref l =>
      match h !! l with
      | Some o => (Normal tt, <[l := <[key := v]> o]> h)
      | None => (Throw TypeError, h)
      end
  | Prim _ => (Throw TypeError, h)
  end.

(** [api.interceptors.request.use((config) => {
       const token = localStorage.getItem("fra_token");
       if (token) { config.headers.Authorization = `Bearer ${token}`; }
       return config; })] *)
Definition request_interceptor (config : val) (st : state) : completion val * state :=
  let token := getItem "fra_token" (localStorage st) in
  if truthy token then
    match get_property config "headers" (objects st) with
    | Throw e => (Throw e, st)
    | Normal hd =>
        match set_property hd "Authorization"
                (Prim (PString ("Bearer " +:+ ToString_nullable token))) (objects st) with
        | (Throw e, h) => (Throw e, {| objects := h; localStorage := localStorage st |})
        | (Normal _, h) => (Normal config, {| objects := h; localStorage := localStorage st |})
        end
    end
  else (Normal config, st).

(** The config axios hands to a request interceptor is an object whose
    [headers] property is an object: the location of that headers
    object, when [config] is of this shape in the heap [h]. *)
Definition config_headers (config : val) (h : heap) : option loc :=
  match get_property config "headers" h with
  | Normal (Ref l) => match h !! l with Some _ => Some l | None => None end
  | _ => None
  end.

(** The header [name] of the request config [config], as axios reads it
    off the headers object when it dispatches the request. *)
Definition header (name : string) (config : val) (h : heap) : option val :=
  l ← config_headers config h; o ← h !! l; o !! name.

End ApiClient.

(** ** The analysis demo: [analyzeLocation] and [displayResults] *)
Module Analysis.
Import Js Json Web.
Local Open Scope js_scope.

(** [const API_URL = 'http://127.0.0.1:5000/api/analyze'] *)
Definition API_URL : string := "http://127.0.0.1:5000/api/analyze".

(** The identifier [displayResults] looks up. *)
Definition results_container : string := "results-container".

(** The arrow function [action => `<li>${action}</li>`]. *)
Definition list_item (action : json) : completion string :=
  match subst (Some action) with
  | Normal text => Normal ("<li>" +:+ text +:+ "</li>")
  | Throw e => Throw e
  end.

(** The template literal assigned to [innerHTML], with its three
    substitutions already evaluated. *)
Definition results_html (suitability score items : string) : string :=
  Str.nl +:+
  "            <h2>Analysis Results</h2>" +:+ Str.nl +:+
  "            <p>Overall Suitability: " +:+ suitability +:+ "</p>" +:+ Str.nl +:+
  "            <p>Total Score: " +:+ score +:+ "</p>" +:+ Str.nl +:+
  "            <h3>Recommendations</h3>" +:+ Str.nl +:+
  "            <ul>" +:+ Str.nl +:+
  "                " +:+ items +:+ Str.nl +:+
  "            </ul>" +:+ Str.nl +:+
  "        ".

(** [function displayResults(data)]: the substitutions are evaluated left
    to right, each one converted to a string as soon as it is evaluated,
    and all of them before the assignment to [innerHTML]. *)
Definition displayResults (data : option json) : M unit :=
  let* resultsContainer := getElementById results_container in
  match resultsContainer with
  | Some _ =>
      let* fra1 := lift (get data "fra_analysis") in
      let* suitability := lift (get fra1 "overall_suitability") in
      let* suitability_text := lift (subst suitability) in
      let* fra2 := lift (get data "fra_analysis") in
      let* score := lift (get fra2 "total_score") in
      let* score_text := lift (subst score) in
      let* recommendations := lift (get data "recommendations") in
      let* actions := lift (get recommendations "immediate_actions") in
      let* items := lift (call_map actions list_item) in
      set_innerHTML results_container
        (results_html suitability_text score_text (Str.concat_all items))
  | None => ret tt
  end.

(** The object literal [{ latitude: parseFloat(latitude),
    longitude: parseFloat(longitude), radius_km: parseFloat(radius) }]. *)
Definition payload (latitude longitude radius : string) : json :=
  JObject [("latitude", JNumber (Number.parseFloat latitude));
           ("longitude", JNumber (Number.parseFloat longitude));
           ("radius_km", JNumber (Number.parseFloat radius))].

(** The request [fetch] is called with. *)
Definition analyze_request (latitude longitude radius : string) : request :=
  {| url := API_URL;
     method := "POST";
     headers := [("Content-Type", "application/json")];
     body := stringify (payload latitude longitude radius) |}.

(** [async function analyzeLocation(latitude, longitude, radius)], for
    string arguments (the values of input fields). The whole body,
    [displayResults] included, is inside the [try] block. *)
Definition analyzeLocation (net : network) (latitude longitude radius : string) : M unit :=
  try_catch
    (let* response := fetch net (analyze_request latitude longitude radius) in
     (if negb (ok response)
      then throw (Error ("HTTP error! status: " +:+ Str.dec (status response)))
      else ret tt);;
     let* analysisData := lift (json_body response) in
     console_log [LText "API Response:"; LData analysisData];;
     displayResults (Some analysisData))
    (fun error =>
       console_error [LText "There was a problem with the fetch operation:"; LExn error]).

(** The click handler of the element [analyze-button]:
    [analyzeLocation(lat, lng, rad)] with the three string constants of
    the script. *)
Definition analyze_button_click (net : network) : M unit :=
  analyzeLocation net "23.3441" "85.3096" "2.0".

(** *** The worlds along a run, and the text of the payload *)

(** The world once the request has gone out. *)
Definition after_fetch (r : request) (w : world) : world :=
  {| doc := doc w; console := console w; sent := (sent w ++ [r])%list |}.

(** The world once [args] have been written to the console. *)
Definition after_console (l : level) (args : list logged) (w : world) : world :=
  {| doc := doc w;
     console := (console w ++ [{| entry_level := l; entry_args := args |}])%list;
     sent := sent w |}.

(** What the [catch] block writes for the thrown value [e]. *)
Definition catch_args (e : exn) : list logged :=
  [LText "There was a problem with the fetch operation:"; LExn e].

(** The JSON text of an object with the fields [latitude], [longitude]
    and [radius_km], in this order, given the texts of their values. *)
Definition payload_text (latitude longitude radius_km : string) : string :=
  "{" +:+ Str.dq +:+ "latitude" +:+ Str.dq +:+ ":" +:+ latitude +:+ "," +:+
  Str.dq +:+ "longitude" +:+ Str.dq +:+ ":" +:+ longitude +:+ "," +:+
  Str.dq +:+ "radius_km" +:+ Str.dq +:+ ":" +:+ radius_km +:+ "}".

(** The world once the element [results-container] has been given [html]. *)
Definition after_render (html : string) (w : world) : world :=
  {| doc := <[results_container := {| innerHTML := html |}]> (doc w);
     console := console w;
     sent := sent w |}.

(** The world in which [displayResults] runs: the request is out and the
    response has been logged. *)
Definition before_render (r : request) (data : json) (w : world) : world :=
  after_console LevelLog [LText "API Response:"; LData data] (after_fetch r w).

End Analysis.

(** ** Sample pages, servers and request configs *)
Module Samples.
Import Js Json Web ApiClient Analysis.

(** A server that answers every request with the status 500 and no body. *)
Definition server_error : network :=
  fun _ => Normal {| status := 500; json_body := Throw SyntaxError |}.

(** A page with an empty results container. *)
Definition page_with_container : world :=
  {| doc := {[ results_container := {| innerHTML := "" |} ]}; console := []; sent := [] |}.

(** A page without a results container. *)
Definition page_without_container : world :=
  {| doc := ∅; console := []; sent := [] |}.

(** A server that answers 200 with a JSON body that has recommendations
    but no [fra_analysis]. *)
Definition body_without_fra_analysis : json :=
  JObject [("recommendations",
            JObject [("immediate_actions", JArray [JString "Survey the parcel"])])].

Definition server_incomplete : network :=
  fun _ => Normal {| status := 200; json_body := Normal body_without_fra_analysis |}.

(** A complete response body. *)
Definition body_complete : json :=
  JObject [("fra_analysis",
            JObject [("overall_suitability", JString "High");
                     ("total_score", JNumber (Number.parseFloat "87.5"))]);
           ("recommendations",
            JObject [("immediate_actions",
                      JArray [JString "Survey the parcel"; JString "File the claim"])])].

Definition server_complete : network :=
  fun _ => Normal {| status := 200; json_body := Normal body_complete |}.

(** A config of a GET request with one header, and its headers object. *)
Definition sample_heap : heap :=
  {[ 1%positive := {[ "headers" := Ref 2; "method" := Prim (PString "get");
                      "url" := Prim (PString "/claims") ]};
     2%positive := {[ "Accept" := Prim (PString "application/json") ]} ]}.

Definition sample_logged_in : state :=
  {| objects := sample_heap; localStorage := {[ "fra_token" := "abc.def.ghi" ]} |}.

Definition sample_logged_out : state :=
  {| objects := sample_heap; localStorage := ∅ |}.

End Samples.

(** ** The page script: the listeners of the demo *)
Module Wiring.
Import Js Json Web Analysis.

(** The identifier the script looks up for the button. *)
Definition analyze_button : string := "analyze-button".

(** What a listener is registered on. *)
Inductive target :=
| TDocument
| TElement (id : string).

Definition target_eqb (a b : target) : bool :=
  match a, b with
  | TDocument, TDocument => true
  | TElement x, TElement y => String.eqb x y
  | _, _ => false
  end.

(** The two arrow functions the script passes to [addEventListener]. *)
Inductive listener :=
| OnDOMContentLoaded
| OnAnalyzeClick.

Record registration := {
  reg_target : target;
  reg_type : string;
  reg_listener : listener
}.

(** The page: the world of the demo, and the listeners registered so far,
    oldest first. *)
Record page := {
  page_world : world;
  page_listeners : list registration
}.

(** [target.addEventListener(type, listener)], for a listener that is a
    fresh function (each arrow function of the script is one). *)
Definition addEventListener (t : target) (type : string) (l : listener) (p : page) : page :=
  {| page_world := page_world p;
     page_listeners :=
       (page_listeners p ++ [{| reg_target := t; reg_type := type; reg_listener := l |}])%list |}.

(** The body of each listener. The click listener calls
    [analyzeLocation] and drops the promise it returns. *)
Definition run_listener (net : network) (l : listener) (p : page) : page :=
  match l with
  | OnDOMContentLoaded =>
      match doc (page_world p) !! analyze_button with
      | Some _ => addEventListener (TElement analyze_button) "click" OnAnalyzeClick p
      | None => p
      end
  | OnAnalyzeClick =>
      {| page_world := snd (analyzeLocation net "23.3441" "85.3096" "2.0" (page_world p));
         page_listeners := page_listeners p |}
  end.

(** The listeners registered on [t] for events of type [type]. *)
Definition listeners_for (t : target) (type : string) (p : page) : list listener :=
  map reg_listener
      (filter (fun r => target_eqb (reg_target r) t && String.eqb (reg_type r) type = true)
              (page_listeners p)).

(** An event of type [type] dispatched on [t]: the listeners registered
    at that moment run in the order of their registration. *)
Definition dispatch (net : network) (t : target) (type : string) (p : page) : page :=
  fold_left (fun acc l => run_listener net l acc) (listeners_for t type p) p.

(** The top level of the script:
    [document.addEventListener('DOMContentLoaded', () => { ... })]. *)
Definition script (p : page) : page :=
  addEventListener TDocument "DOMContentLoaded" OnDOMContentLoaded p.

(** A page on which no script has run yet. *)
Definition fresh_page (w : world) : page :=
  {| page_world := w; page_listeners := [] |}.

(** The page once the script has run and the document has loaded. *)
Definition loaded_page (net : network) (w : world) : page :=
  dispatch net TDocument "DOMContentLoaded" (script (fresh_page w)).

(** The registration the top level of the script makes. *)
Definition ready_registration : registration :=
  {| reg_target := TDocument; reg_type := "DOMContentLoaded";
     reg_listener := OnDOMContentLoaded |}.

(** The registration the loaded-document listener makes. *)
Definition click_registration : registration :=
  {| reg_target := TElement analyze_button; reg_type := "click";
     reg_listener := OnAnalyzeClick |}.

(** A page with the button and nothing else. *)
Definition page_with_button : world :=
  {| doc := {[ analyze_button := {| innerHTML := "Analyze" |} ]};
     console := []; sent := [] |}.

End Wiring.

(** ** The hook and the interceptor on one browser state *)
Module AuthFlow.
Import Js Web TokenStore ApiClient.

Definition with_storage (ls : storage) (st : state) : state :=
  {| objects := objects st; localStorage := ls |}.

(** A call of the hook's [setToken] in the browser state [st]. *)
Definition login (token : prim) (st : state) : state :=
  with_storage (snd (setToken token (localStorage st))) st.

(** A call of the hook's [clearToken] in the browser state [st]. *)
Definition logout (st : state) : state :=
  with_storage (snd (clearToken (localStorage st))) st.

End AuthFlow.

(** ** What the render step reads, said directly *)
Module Shape.
Import Js Json Web Analysis.

(** Can properties of [v] be read? Not of [undefined], not of [null]. *)
Definition has_properties (v : option json) : bool :=
  match v with
  | None | Some JNull => false
  | Some _ => true
  end.

(** The property [k] of [v], for a [v] whose properties can be read. *)
Definition prop (v : option json) (k : string) : option json :=
  match v with
  | Some (JObject fields) => field k fields
  | _ => None
  end.

Definition array_items (v : option json) : list json :=
  match v with
  | Some (JArray items) => items
  | _ => []
  end.

Definition is_array (v : option json) : bool :=
  match v with
  | Some (JArray _) => true
  | _ => false
  end.

(** Can the value be converted to a string? Not an object with an own
    property [toString], and not an array with such an element (at any
    depth of arrays). *)
Fixpoint printable (j : json) : bool :=
  match j with
  | JArray items => forallb printable items
  | JObject fields => match field "toString" fields with Some _ => false | None => true end
  | _ => true
  end.

(** The string a printable value converts to. *)
Fixpoint print (j : json) : string :=
  match j with
  | JNull => "null"
  | JBoolean b => if b then "true" else "false"
  | JNumber x => Number.to_string x
  | JString s => s
  | JArray items =>
      join "," (map (fun e => match e with JNull => "" | _ => print e end) items)
  | JObject _ => "[object Object]"
  end.

(** The same for a value that may be [undefined]. *)
Definition printable_value (v : option json) : bool :=
  match v with
  | None => true
  | Some j => printable j
  end.

Definition print_value (v : option json) : string :=
  match v with
  | None => "undefined"
  | Some j => print j
  end.

(** The body has what the template reads: it is not [null], its
    [fra_analysis] and [recommendations] are neither missing nor [null],
    [recommendations.immediate_actions] is an array, and the two leaves
    and every action can be converted to a string. *)
Definition renderable (data : option json) : bool :=
  has_properties data &&
  has_properties (prop data "fra_analysis") &&
  has_properties (prop data "recommendations") &&
  is_array (prop (prop data "recommendations") "immediate_actions") &&
  printable_value (prop (prop data "fra_analysis") "overall_suitability") &&
  printable_value (prop (prop data "fra_analysis") "total_score") &&
  forallb printable (array_items (prop (prop data "recommendations") "immediate_actions")).

(** The text the template gives for a renderable body. *)
Definition rendered (data : option json) : string :=
  results_html
    (print_value (prop (prop data "fra_analysis") "overall_suitability"))
    (print_value (prop (prop data "fra_analysis") "total_score"))
    (Str.concat_all
       (map (fun action => "<li>" +:+ print action +:+ "</li>")
            (array_items (prop (prop data "recommendations") "immediate_actions")))).

(** A response body of the expected shape whose leaves are strings. *)
Definition analysis_body (suitability score : string) (actions : list string) : json :=
  JObject [("fra_analysis",
            JObject [("overall_suitability", JString suitability);
                     ("total_score", JString score)]);
           ("recommendations",
            JObject [("immediate_actions", JArray (map JString actions))])].

(** Every code unit of [s] satisfies [P]. *)
Fixpoint all_chars (P : ascii -> bool) (s : string) : bool :=
  match s with
  | EmptyString => true
  | String c r => P c && all_chars P r
  end.

(** The code units a number's JSON text is made of. *)
Definition number_char (c : ascii) : bool :=
  Str.is_digit c || Ascii.eqb c "." || Ascii.eqb c "e" || Ascii.eqb c "+" || Ascii.eqb c "-".

(** The text of a field of the payload: [null], or made of number
    characters only. *)
Definition field_text (s : string) : bool :=
  String.eqb s "null" || all_chars number_char s.

End Shape.

(** * Properties *)

(** ** The token store *)
Section TokenStoreProperties.
Import Js Web TokenStore.

Lemma setToken_string (T : string) (ls : storage) :
  setToken (PString T) ls = (Normal tt, <[fra_token := T]> ls).
Proof. reflexivity. Qed.


Lemma setToken_throws (v : prim) (e : exn) (ls : storage) :
  ToString v = Throw e -> setToken v ls = (Throw e, ls).
Proof. intros Hs. unfold setToken, setItem. now rewrite Hs. Qed.

(** Only a Symbol has no string form. *)
Lemma ToString_throws_symbol (v : prim) (e : exn) :
  ToString v = Throw e -> exists d, v = PSymbol d.
Proof. destruct v; simpl; try discriminate. intros _. now eexists. Qed.

Lemma getToken_insert (s : string) (ls : storage) :
  getToken (<[fra_token := s]> ls) = Some s.
Proof. unfold getToken, getItem. apply lookup_insert_eq. Qed.

Lemma run_snoc (calls : list call) (c : call) (ls : storage) :
  run (calls ++ [c]) ls = after c (run calls ls).
Proof. unfold run. now rewrite fold_left_app. Qed.

Lemma since_clear_snoc (calls : list call) (c : call) :
  since_clear (calls ++ [c]) =
  if is_clear c then [] else (since_clear calls ++ [c])%list.
Proof. unfold since_clear. now rewrite fold_left_app. Qed.

(** C3. For every string [T] (the empty one included), [setToken(T)]
    returns, and [getToken()] after it returns exactly [T], whatever the
    storage area held before. *)
Theorem setToken_getToken_roundtrip (T : string) (ls : storage) :
  fst (setToken (PString T) ls) = Normal tt /\
  getToken (snd (setToken (PString T) ls)) = Some T.
Proof.
  rewrite setToken_string. split; [reflexivity|]. apply getToken_insert.
Qed.

(** C7. From every state of the storage area, [clearToken()] returns
    without throwing and [getToken()] after it returns [null]; a second
    [clearToken()] returns too and leaves the cleared state as it is. *)
Theorem clearToken_absent_idempotent (ls : storage) :
  fst (clearToken ls) = Normal tt /\
  getToken (snd (clearToken ls)) = None /\
  fst (clearToken (snd (clearToken ls))) = Normal tt /\
  snd (clearToken (snd (clearToken ls))) = snd (clearToken ls).
Proof.
  unfold clearToken, getToken, getItem, removeItem.
  cbn [fst snd].
  split; [reflexivity|]. split; [apply lookup_delete_eq|].
  split; [reflexivity|].
  apply map_eq; intros k. rewrite !lookup_delete.
  destruct (decide (fra_token = k)); reflexivity.
Qed.





(** The converse on a store that starts without a token: when no
    [setToken] call has returned since the last [clearToken],
    [getToken()] returns [null]. *)
Lemma getToken_run_cleared (calls : list call) (ls : storage) :
  getToken ls = None ->
  Forall (fun c => stores c = false) (since_clear calls) ->
  getToken (run calls ls) = None.
Proof.
  intros Hls. induction calls as [|c calls IH] using rev_ind; intros Hall.
  - exact Hls.
  - rewrite run_snoc. rewrite since_clear_snoc in Hall.
    destruct c as [v|]; simpl in *.
    + apply Forall_app in Hall as [Hpre Hc]. inversion Hc as [|? ? Hv _]; subst.
      simpl in Hv. destruct (ToString v) as [s|e] eqn:Hs; [discriminate|].
      rewrite (setToken_throws _ _ _ Hs). now apply IH.
    + unfold getToken, getItem, removeItem. apply lookup_delete_eq.
Qed.

End TokenStoreProperties.

(** ** The request interceptor *)
Section ApiClientProperties.
Import Js Web ApiClient Samples.

Lemma config_headers_inv (config : val) (h : heap) (hl : loc) :
  config_headers config h = Some hl ->
  exists c co ho, config = Ref c /\ h !! c = Some co /\
                  co !! "headers" = Some (Ref hl) /\ h !! hl = Some ho.
Proof.
  unfold config_headers, get_property.
  destruct config as [p|c].
  - destruct p; discriminate.
  - destruct (h !! c) as [co|] eqn:Hc; [|discriminate].
    destruct (co !! "headers") as [v|] eqn:Hh; simpl; [|discriminate].
    destruct v as [p|l]; [discriminate|].
    destruct (h !! l) as [ho|] eqn:Hl; [|discriminate].
    intros [= ->]. now exists c, co, ho.
Qed.

(** The interceptor's step when a truthy token is stored. *)
Lemma request_interceptor_token (config : val) (st : state) (hl : loc)
      (ho : object) (T : string) :
  config_headers config (objects st) = Some hl ->
  objects st !! hl = Some ho ->
  getItem "fra_token" (localStorage st) = Some T ->
  T <> "" ->
  request_interceptor config st =
  (Normal config,
   {| objects := <[hl := <["Authorization" := Prim (PString ("Bearer " +:+ T))]> ho]> (objects st);
      localStorage := localStorage st |}).
Proof.
  intros Hwf Hho Htok Hne.
  destruct (config_headers_inv _ _ _ Hwf) as (c & co & ho' & -> & Hc & Hh & Hl).
  assert (ho' = ho) as -> by congruence.
  unfold request_interceptor. rewrite Htok.
  destruct T as [|a T']; [congruence|]. simpl.
  rewrite Hc, Hh. simpl. now rewrite Hl.
Qed.

(** The interceptor's step when no truthy token is stored. *)
Lemma request_interceptor_no_token (config : val) (st : state) :
  truthy (getItem "fra_token" (localStorage st)) = false ->
  request_interceptor config st = (Normal config, st).
Proof. intros Hf. unfold request_interceptor. now rewrite Hf. Qed.

(** Writing [Authorization] into the headers object keeps the config's
    [headers] property pointing at it. *)
Lemma config_headers_after (config : val) (h : heap) (hl : loc) (ho : object) (v : val) :
  config_headers config h = Some hl ->
  h !! hl = Some ho ->
  config_headers config (<[hl := <["Authorization" := v]> ho]> h) = Some hl.
Proof.
  intros Hwf Hho.
  destruct (config_headers_inv _ _ _ Hwf) as (c & co & ho' & -> & Hc & Hh & Hl).
  unfold config_headers, get_property.
  destruct (decide (hl = c)) as [->|Hne].
  - rewrite lookup_insert_eq.
    assert (ho = co) as -> by congruence.
    rewrite lookup_insert_ne by discriminate. rewrite Hh. simpl.
    now rewrite lookup_insert_eq.
  - rewrite lookup_insert_ne by done. rewrite Hc, Hh. simpl.
    now rewrite lookup_insert_eq.
Qed.

Lemma header_after_token (config : val) (h : heap) (hl : loc) (ho : object) (v : val) :
  config_headers config h = Some hl ->
  h !! hl = Some ho ->
  header "Authorization" config (<[hl := <["Authorization" := v]> ho]> h) = Some v.
Proof.
  intros Hwf Hho. unfold header.
  rewrite (config_headers_after _ _ _ _ v Hwf Hho). simpl.
  rewrite lookup_insert_eq. simpl. apply lookup_insert_eq.
Qed.

(** C2. For a request config as axios hands it to the interceptor (an
    object with a headers object): when [getToken()] returns a non-empty
    token [T], the interceptor returns the config with the header
    [Authorization] set to exactly [Bearer T]; when no token is stored,
    it returns the config with nothing added, so the request has the
    [Authorization] header it was issued with, and none (not an empty
    one) when it was issued without. *)
Theorem interceptor_sets_bearer_header (config : val) (st : state) (hl : loc) :
  config_headers config (objects st) = Some hl ->
  (forall T : string,
      TokenStore.getToken (localStorage st) = Some T ->
      T <> "" ->
      fst (request_interceptor config st) = Normal config /\
      header "Authorization" config (objects (snd (request_interceptor config st)))
      = Some (Prim (PString ("Bearer " +:+ T)))) /\
  (TokenStore.getToken (localStorage st) = None ->
      request_interceptor config st = (Normal config, st) /\
      header "Authorization" config (objects (snd (request_interceptor config st)))
      = header "Authorization" config (objects st) /\
      (header "Authorization" config (objects st) = None ->
       header "Authorization" config (objects (snd (request_interceptor config st))) = None)).
Proof.
  intros Hwf. split.
  - intros T Htok Hne.
    destruct (config_headers_inv _ _ _ Hwf) as (c & co & ho & -> & Hc & Hh & Hl).
    rewrite (request_interceptor_token _ _ _ _ _ Hwf Hl Htok Hne). cbn [fst snd objects].
    split; [reflexivity|]. now apply header_after_token.
  - intros Hnone.
    assert (Hstep : request_interceptor config st = (Normal config, st)).
    { apply request_interceptor_no_token.
      unfold TokenStore.getToken, TokenStore.fra_token in Hnone. now rewrite Hnone. }
    rewrite Hstep. cbn [snd]. auto.
Qed.

(** C10. The interceptor returns the very config it was given (the same
    reference), leaves [localStorage] alone, creates and deletes no
    object, and changes no property of any object other than
    [Authorization] of the config's headers object: the config's method,
    URL, data and every other header are as before. With no token stored
    the whole state is as before. *)
Theorem interceptor_frame (config : val) (st : state) (hl : loc) :
  config_headers config (objects st) = Some hl ->
  fst (request_interceptor config st) = Normal config /\
  localStorage (snd (request_interceptor config st)) = localStorage st /\
  dom (objects (snd (request_interceptor config st))) = dom (objects st) /\
  (forall (l : loc) (k : string),
      (l, k) <> (hl, "Authorization") ->
      (objects (snd (request_interceptor config st)) !! l) ≫= (.!! k)
      = (objects st !! l) ≫= (.!! k)) /\
  (TokenStore.getToken (localStorage st) = None ->
   snd (request_interceptor config st) = st).
Proof.
  intros Hwf.
  destruct (truthy (getItem "fra_token" (localStorage st))) eqn:Htruthy.
  - destruct (getItem "fra_token" (localStorage st)) as [T|] eqn:Htok; [|discriminate].
    assert (Hne : T <> "") by (intros ->; discriminate).
    destruct (config_headers_inv _ _ _ Hwf) as (c & co & ho & -> & Hc & Hh & Hl).
    rewrite (request_interceptor_token _ _ _ _ _ Hwf Hl Htok Hne). cbn [fst snd objects localStorage].
    split; [reflexivity|]. split; [reflexivity|]. split; [|split].
    + apply set_eq. intros l. rewrite !elem_of_dom.
      destruct (decide (hl = l)) as [<-|Hneq].
      * rewrite lookup_insert_eq, Hl. split; intros _; eauto.
      * now rewrite lookup_insert_ne.
    + intros l k Hlk. destruct (decide (hl = l)) as [<-|Hneq].
      * rewrite lookup_insert_eq, Hl. simpl.
        apply lookup_insert_ne. congruence.
      * now rewrite lookup_insert_ne.
    + unfold TokenStore.getToken, TokenStore.fra_token. congruence.
  - rewrite (request_interceptor_no_token _ _ Htruthy). cbn [fst snd]. auto.
Qed.

Lemma interceptor_sets_bearer_header_witness :
  header "Authorization" (Ref 1) (objects (snd (request_interceptor (Ref 1) sample_logged_in)))
  = Some (Prim (PString "Bearer abc.def.ghi")) /\
  header "Authorization" (Ref 1) (objects (snd (request_interceptor (Ref 1) sample_logged_out)))
  = None.
Proof.
  split.
  - assert (Hwf : config_headers (Ref 1) (objects sample_logged_in) = Some 2%positive)
      by (vm_compute; reflexivity).
    destruct (interceptor_sets_bearer_header (Ref 1) sample_logged_in 2 Hwf) as [Hset _].
    apply (Hset "abc.def.ghi"); [vm_compute; reflexivity | discriminate].
  - assert (Hwf : config_headers (Ref 1) (objects sample_logged_out) = Some 2%positive)
      by (vm_compute; reflexivity).
    destruct (interceptor_sets_bearer_header (Ref 1) sample_logged_out 2 Hwf) as [_ Hkeep].
    apply Hkeep; vm_compute; reflexivity.
Defined.

Lemma interceptor_frame_witness :
  fst (request_interceptor (Ref 1) sample_logged_in) = Normal (Ref 1) /\
  (objects (snd (request_interceptor (Ref 1) sample_logged_in)) !! 1%positive) ≫= (.!! "url")
  = Some (Prim (PString "/claims")) /\
  snd (request_interceptor (Ref 1) sample_logged_out) = sample_logged_out.
Proof.
  assert (Hin : config_headers (Ref 1) (objects sample_logged_in) = Some 2%positive)
    by (vm_compute; reflexivity).
  assert (Hout : config_headers (Ref 1) (objects sample_logged_out) = Some 2%positive)
    by (vm_compute; reflexivity).
  destruct (interceptor_frame (Ref 1) sample_logged_in 2 Hin) as (Hret & _ & _ & Hother & _).
  destruct (interceptor_frame (Ref 1) sample_logged_out 2 Hout) as (_ & _ & _ & _ & Hsame).
  split; [exact Hret|]. split.
  - rewrite (Hother 1%positive "url") by discriminate. vm_compute. reflexivity.
  - apply Hsame. vm_compute. reflexivity.
Defined.

End ApiClientProperties.

(** ** Converting data trees to strings *)
Section PrintProperties.
Import Js Json Web Analysis Shape.

(** Induction on data trees that reaches the elements of arrays. *)
Lemma json_elements_ind (P : json -> Prop) :
  P JNull ->
  (forall b, P (JBoolean b)) ->
  (forall x, P (JNumber x)) ->
  (forall s, P (JString s)) ->
  (forall items, Forall P items -> P (JArray items)) ->
  (forall fields, P (JObject fields)) ->
  forall j, P j.
Proof.
  intros Hnull Hbool Hnum Hstr Harr Hobj.
  fix IH 1. intros [ |b|x|s|items|fields].
  - exact Hnull.
  - apply Hbool.
  - apply Hnum.
  - apply Hstr.
  - apply Harr. induction items as [|e rest IHrest]; constructor.
    + apply IH.
    + exact IHrest.
  - apply Hobj.
Qed.

(** [ToString] on a data tree succeeds exactly on the printable ones,
    and what it throws is a [TypeError]. *)
Lemma to_string_printable (j : json) :
  to_string j = if printable j then Normal (print j) else Throw TypeError.
Proof.
  induction j as [ |b|x|s|items IHitems|fields] using json_elements_ind;
    try reflexivity.
  - cbn [to_string printable print].
    match goal with
    | |- match ?f items with _ => _ end = _ =>
        assert (Hgo :
          f items =
          if forallb printable items
          then Normal (map (fun e => match e with JNull => "" | _ => print e end) items)
          else Throw TypeError)
    end.
    { induction IHitems as [|e rest He _ IHrest]; [reflexivity|].
      assert (Helem : (match e with JNull => Normal "" | _ => to_string e end)
                      = if printable e
                        then Normal (match e with JNull => "" | _ => print e end)
                        else Throw TypeError).
      { destruct e; try exact He; reflexivity. }
      cbn [forallb map]. rewrite Helem, IHrest.
      destruct (printable e); [|reflexivity]. now destruct (forallb printable rest). }
    rewrite Hgo. now destruct (forallb printable items).
  - cbn [to_string printable print]. now destruct (field "toString" fields).
Qed.

Lemma subst_printable (v : option json) :
  subst v = if printable_value v then Normal (print_value v) else Throw TypeError.
Proof. destruct v as [j|]; [apply to_string_printable|reflexivity]. Qed.

Lemma list_item_printable (action : json) :
  list_item action =
  if printable action then Normal ("<li>" +:+ print action +:+ "</li>")
  else Throw TypeError.
Proof.
  unfold list_item. cbn [subst]. rewrite to_string_printable.
  now destruct (printable action).
Qed.

Lemma map_list_item_printable (items : list json) :
  map_completion list_item items =
  if forallb printable items
  then Normal (map (fun action => "<li>" +:+ print action +:+ "</li>") items)
  else Throw TypeError.
Proof.
  induction items as [|e rest IH]; [reflexivity|].
  cbn [map_completion forallb map]. rewrite list_item_printable, IH.
  destruct (printable e); [|reflexivity]. now destruct (forallb printable rest).
Qed.

End PrintProperties.

(** ** The analysis demo *)
Section AnalysisProperties.
Import Js Json Web Analysis Samples Shape.

Lemma append_assoc (a b c : string) : (a +:+ b) +:+ c = a +:+ (b +:+ c).
Proof.
  induction a as [|x a IH]; [reflexivity|].
  change (String x ((a +:+ b) +:+ c) = String x (a +:+ (b +:+ c))).
  now rewrite IH.
Qed.

Lemma stringify_payload (latitude longitude radius : string) :
  stringify (payload latitude longitude radius) =
  payload_text (stringify_number (Number.parseFloat latitude))
               (stringify_number (Number.parseFloat longitude))
               (stringify_number (Number.parseFloat radius)).
Proof.
  unfold payload, payload_text. cbn [stringify map join fst snd].
  unfold quote. rewrite !append_assoc. reflexivity.
Qed.

(** [displayResults] does one of three things: nothing, a throw that
    leaves the world as it was, or one write to [innerHTML]. *)
Lemma displayResults_outcome (data : option json) (w : world) :
  displayResults data w = (Normal tt, w) \/
  (exists e, displayResults data w = (Throw e, w)) \/
  (exists html, displayResults data w = (Normal tt, after_render html w)).
Proof.
  unfold displayResults, bind, getElementById, lift, ret.
  destruct (doc w !! results_container) as [el|]; [|now left].
  right.
  destruct (get data "fra_analysis") as [fra|e]; [|left; now exists e].
  destruct (get fra "overall_suitability") as [suit|e]; [|left; now exists e].
  destruct (subst suit) as [suit_text|e]; [|left; now exists e].
  destruct (get fra "total_score") as [score|e]; [|left; now exists e].
  destruct (subst score) as [score_text|e]; [|left; now exists e].
  destruct (get data "recommendations") as [rec|e]; [|left; now exists e].
  destruct (get rec "immediate_actions") as [acts|e]; [|left; now exists e].
  destruct (call_map acts list_item) as [items|e]; [|left; now exists e].
  right. eexists. reflexivity.
Qed.

(** The steps of [analyzeLocation], one lemma per way out of the [try] block. *)
Lemma analyzeLocation_fetch_rejected net latitude longitude radius w e :
  net (analyze_request latitude longitude radius) = Throw e ->
  analyzeLocation net latitude longitude radius w =
  (Normal tt,
   after_console LevelError (catch_args e)
     (after_fetch (analyze_request latitude longitude radius) w)).
Proof.
  intros Hnet. unfold analyzeLocation, try_catch, bind, fetch. now rewrite Hnet.
Qed.

Lemma analyzeLocation_not_ok net latitude longitude radius w r :
  net (analyze_request latitude longitude radius) = Normal r ->
  ok r = false ->
  analyzeLocation net latitude longitude radius w =
  (Normal tt,
   after_console LevelError
     (catch_args (Error ("HTTP error! status: " +:+ Str.dec (status r))))
     (after_fetch (analyze_request latitude longitude radius) w)).
Proof.
  intros Hnet Hok. unfold analyzeLocation, try_catch, bind, fetch.
  rewrite Hnet, Hok. reflexivity.
Qed.

Lemma analyzeLocation_body_rejected net latitude longitude radius w r e :
  net (analyze_request latitude longitude radius) = Normal r ->
  ok r = true ->
  json_body r = Throw e ->
  analyzeLocation net latitude longitude radius w =
  (Normal tt,
   after_console LevelError (catch_args e)
     (after_fetch (analyze_request latitude longitude radius) w)).
Proof.
  intros Hnet Hok Hbody. unfold analyzeLocation, try_catch, bind, fetch, lift.
  rewrite Hnet, Hok. simpl. rewrite Hbody. reflexivity.
Qed.

Lemma analyzeLocation_renders net latitude longitude radius w r data :
  net (analyze_request latitude longitude radius) = Normal r ->
  ok r = true ->
  json_body r = Normal data ->
  analyzeLocation net latitude longitude radius w =
  match displayResults (Some data)
          (before_render (analyze_request latitude longitude radius) data w) with
  | (Normal _, w') => (Normal tt, w')
  | (Throw e, w') => (Normal tt, after_console LevelError (catch_args e) w')
  end.
Proof.
  intros Hnet Hok Hbody. unfold analyzeLocation, try_catch, bind, fetch, lift.
  rewrite Hnet, Hok. simpl. rewrite Hbody. simpl.
  unfold before_render, after_console, after_fetch. simpl.
  destruct (displayResults _ _) as [[[]|e] w']; reflexivity.
Qed.

(** [displayResults] never touches the list of requests. *)
Lemma displayResults_sent (data : option json) (w : world) :
  sent (snd (displayResults data w)) = sent w.
Proof.
  destruct (displayResults_outcome data w) as [H|[[e H]|[html H]]];
    rewrite H; reflexivity.
Qed.

(** Every run of [analyzeLocation] completes normally: whatever is thrown
    inside the [try] block ends in the [catch] block, which logs it. *)
Lemma analyzeLocation_fulfils net latitude longitude radius w :
  fst (analyzeLocation net latitude longitude radius w) = Normal tt.
Proof.
  destruct (net (analyze_request latitude longitude radius)) as [r|e] eqn:Hnet.
  - destruct (ok r) eqn:Hok.
    + destruct (json_body r) as [data|e] eqn:Hbody.
      * rewrite (analyzeLocation_renders _ _ _ _ _ _ _ Hnet Hok Hbody).
        destruct (displayResults _ _) as [[[]|e] w']; reflexivity.
      * now rewrite (analyzeLocation_body_rejected _ _ _ _ _ _ _ Hnet Hok Hbody).
    + now rewrite (analyzeLocation_not_ok _ _ _ _ _ _ Hnet Hok).
  - now rewrite (analyzeLocation_fetch_rejected _ _ _ _ _ _ Hnet).
Qed.

(** Every run of [analyzeLocation] sends exactly one request, the POST
    of the payload. *)
Lemma analyzeLocation_sends_once net latitude longitude radius w :
  sent (snd (analyzeLocation net latitude longitude radius w)) =
  (sent w ++ [analyze_request latitude longitude radius])%list.
Proof.
  destruct (net (analyze_request latitude longitude radius)) as [r|e] eqn:Hnet.
  - destruct (ok r) eqn:Hok.
    + destruct (json_body r) as [data|e] eqn:Hbody.
      * rewrite (analyzeLocation_renders _ _ _ _ _ _ _ Hnet Hok Hbody).
        pose proof (displayResults_sent (Some data)
          (before_render (analyze_request latitude longitude radius) data w)) as Hs.
        destruct (displayResults _ _) as [[[]|e] w']; simpl in *; exact Hs.
      * now rewrite (analyzeLocation_body_rejected _ _ _ _ _ _ _ Hnet Hok Hbody).
    + now rewrite (analyzeLocation_not_ok _ _ _ _ _ _ Hnet Hok).
  - now rewrite (analyzeLocation_fetch_rejected _ _ _ _ _ _ Hnet).
Qed.

(** A body without the property [fra_analysis] makes the first
    substitution of the template throw, before anything is written. *)
Lemma displayResults_missing_fra_analysis (data : option json) (w : world) (el : element) :
  doc w !! results_container = Some el ->
  get data "fra_analysis" = Normal None ->
  displayResults data w = (Throw TypeError, w).
Proof.
  intros Hel Hfra. unfold displayResults, bind, getElementById, lift.
  rewrite Hel, Hfra. reflexivity.
Qed.

(** A body without [recommendations] throws too, after the first two
    substitutions have been evaluated and still before any write. *)
Lemma displayResults_missing_recommendations (data : option json) (w : world)
      (el : element) (fra : option json) (suit score : option json) :
  doc w !! results_container = Some el ->
  get data "fra_analysis" = Normal fra ->
  get fra "overall_suitability" = Normal suit ->
  get fra "total_score" = Normal score ->
  get data "recommendations" = Normal None ->
  displayResults data w = (Throw TypeError, w).
Proof.
  intros Hel Hfra Hsuit Hscore Hrec. unfold displayResults, bind, getElementById, lift.
  rewrite Hel, Hfra. cbn. rewrite Hsuit, Hscore. cbn. rewrite Hrec.
  rewrite !subst_printable.
  destruct (printable_value suit); [|reflexivity].
  destruct (printable_value score); reflexivity.
Qed.

(** The render step on the complete sample body: the three
    substitutions, and the one write to [innerHTML]. *)
Example displayResults_sample :
  displayResults (Some body_complete) page_with_container =
  (Normal tt,
   after_render
     (results_html "High" "87.5" "<li>Survey the parcel</li><li>File the claim</li>")
     page_with_container).
Proof. vm_compute. reflexivity. Qed.

(** A missing leaf does not throw: without [total_score] the page shows
    the text undefined. *)
Example displayResults_missing_leaf :
  displayResults
    (Some (JObject [("fra_analysis", JObject [("overall_suitability", JNull)]);
                    ("recommendations", JObject [("immediate_actions", JArray [])])]))
    page_with_container =
  (Normal tt, after_render (results_html "null" "undefined" "") page_with_container).
Proof. vm_compute. reflexivity. Qed.

(** A successful run of the click handler: one request, the response
    logged, the container filled. *)
Example analyze_button_click_sample :
  analyze_button_click server_complete page_with_container =
  (Normal tt,
   after_render
     (results_html "High" "87.5" "<li>Survey the parcel</li><li>File the claim</li>")
     (before_render (analyze_request "23.3441" "85.3096" "2.0") body_complete
        page_with_container)).
Proof. vm_compute. reflexivity. Qed.

(** C8. When the document has no element [results-container],
    [displayResults] returns without throwing and leaves the world (the
    document included) exactly as it was, for every [data], [undefined]
    included. *)
Theorem displayResults_without_container (data : option json) (w : world) :
  doc w !! results_container = None ->
  displayResults data w = (Normal tt, w).
Proof.
  intros Hnone. unfold displayResults, bind, getElementById. now rewrite Hnone.
Qed.

(** C5. On a response whose status is outside 200 to 299,
    [analyzeLocation] throws [Error] with the message
    [HTTP error! status: <status>], catches it itself and writes it with
    [console.error]: the call completes normally, the document is as
    before, the console has that one new entry, and the one request is
    the only one sent. *)
Theorem analyzeLocation_http_error net latitude longitude radius w r :
  net (analyze_request latitude longitude radius) = Normal r ->
  ok r = false ->
  fst (analyzeLocation net latitude longitude radius w) = Normal tt /\
  doc (snd (analyzeLocation net latitude longitude radius w)) = doc w /\
  console (snd (analyzeLocation net latitude longitude radius w)) =
    (console w ++
     [{| entry_level := LevelError;
         entry_args :=
           [LText "There was a problem with the fetch operation:";
            LExn (Error ("HTTP error! status: " +:+ Str.dec (status r)))] |}])%list /\
  sent (snd (analyzeLocation net latitude longitude radius w)) =
    (sent w ++ [analyze_request latitude longitude radius])%list.
Proof.
  intros Hnet Hok. rewrite (analyzeLocation_not_ok _ _ _ _ _ _ Hnet Hok).
  repeat split.
Qed.

Lemma analyzeLocation_http_error_witness :
  fst (analyzeLocation server_error "23.3441" "85.3096" "2.0" page_with_container) = Normal tt /\
  doc (snd (analyzeLocation server_error "23.3441" "85.3096" "2.0" page_with_container))
  = doc page_with_container /\
  console (snd (analyzeLocation server_error "23.3441" "85.3096" "2.0" page_with_container)) =
    [{| entry_level := LevelError;
        entry_args :=
          [LText "There was a problem with the fetch operation:";
           LExn (Error "HTTP error! status: 500")] |}].
Proof.
  destruct (analyzeLocation_http_error server_error "23.3441" "85.3096" "2.0"
              page_with_container {| status := 500; json_body := Throw SyntaxError |}
              eq_refl eq_refl) as (Hret & Hdoc & Hconsole & _).
  split; [exact Hret|]. split; [exact Hdoc|]. exact Hconsole.
Defined.

Lemma displayResults_without_container_witness :
  displayResults None page_without_container = (Normal tt, page_without_container) /\
  displayResults (Some (JObject [])) page_without_container = (Normal tt, page_without_container).
Proof.
  split; apply displayResults_without_container; reflexivity.
Defined.

(** C1, as stated, fails: with a 200 response whose body lacks
    [fra_analysis] and the container present, the render step does throw,
    but [analyzeLocation] completes normally; nothing propagates to its
    caller. *)
Lemma render_error_does_not_propagate :
  fst (displayResults (Some body_without_fra_analysis)
         (before_render (analyze_request "23.3441" "85.3096" "2.0")
            body_without_fra_analysis page_with_container)) = Throw TypeError /\
  fst (analyzeLocation server_incomplete "23.3441" "85.3096" "2.0" page_with_container)
  = Normal tt /\
  ~ (exists e,
        fst (analyzeLocation server_incomplete "23.3441" "85.3096" "2.0" page_with_container)
        = Throw e).
Proof.
  split; [reflexivity|].
  pose proof (analyzeLocation_fulfils server_incomplete "23.3441" "85.3096" "2.0"
                page_with_container) as Hok.
  split; [exact Hok|]. intros [e He]. rewrite Hok in He. discriminate.
Qed.

(** C1, amended. When the response is 2xx, the element
    [results-container] exists and the parsed body has no property
    [fra_analysis], the render step throws a [TypeError] before writing
    anything, and [analyzeLocation] catches it in its own [catch] block
    (the [try] block encloses the call to [displayResults]): it is
    written with [console.error] after the logged response, the call
    completes normally, and the document is as before. The same holds
    for whatever else the render step throws. *)
Theorem analyzeLocation_catches_render_error
        net latitude longitude radius w r data el :
  net (analyze_request latitude longitude radius) = Normal r ->
  ok r = true ->
  json_body r = Normal data ->
  doc w !! results_container = Some el ->
  get (Some data) "fra_analysis" = Normal None ->
  fst (displayResults (Some data)
         (before_render (analyze_request latitude longitude radius) data w))
  = Throw TypeError /\
  fst (analyzeLocation net latitude longitude radius w) = Normal tt /\
  doc (snd (analyzeLocation net latitude longitude radius w)) = doc w /\
  console (snd (analyzeLocation net latitude longitude radius w)) =
    (console w ++
     [{| entry_level := LevelLog; entry_args := [LText "API Response:"; LData data] |};
      {| entry_level := LevelError;
         entry_args :=
           [LText "There was a problem with the fetch operation:"; LExn TypeError] |}])%list /\
  (forall e,
      fst (displayResults (Some data)
             (before_render (analyze_request latitude longitude radius) data w))
      = Throw e ->
      analyzeLocation net latitude longitude radius w =
      (Normal tt,
       after_console LevelError (catch_args e)
         (before_render (analyze_request latitude longitude radius) data w))).
Proof.
  intros Hnet Hok Hbody Hel Hfra.
  assert (Hthrow :
    displayResults (Some data)
      (before_render (analyze_request latitude longitude radius) data w)
    = (Throw TypeError,
       before_render (analyze_request latitude longitude radius) data w)).
  { apply (displayResults_missing_fra_analysis _ _ el); [exact Hel|exact Hfra]. }
  rewrite (analyzeLocation_renders _ _ _ _ _ _ _ Hnet Hok Hbody).
  split; [now rewrite Hthrow|]. split; [now rewrite Hthrow|].
  split; [now rewrite Hthrow|]. split.
  - rewrite Hthrow. cbn. now rewrite <- app_assoc.
  - intros e He.
    destruct (displayResults_outcome (Some data)
                (before_render (analyze_request latitude longitude radius) data w))
      as [H|[[e' H]|[html H]]]; rewrite H in He |- *; cbn in He;
      try discriminate.
    now injection He as ->.
Qed.

Lemma analyzeLocation_catches_render_error_witness :
  fst (analyzeLocation server_incomplete "23.3441" "85.3096" "2.0" page_with_container)
  = Normal tt /\
  doc (snd (analyzeLocation server_incomplete "23.3441" "85.3096" "2.0" page_with_container))
  = doc page_with_container.
Proof.
  destruct (analyzeLocation_catches_render_error server_incomplete
              "23.3441" "85.3096" "2.0" page_with_container
              {| status := 200; json_body := Normal body_without_fra_analysis |}
              body_without_fra_analysis {| innerHTML := "" |}
              eq_refl eq_refl eq_refl eq_refl eq_refl) as (_ & Hret & Hdoc & _).
  split; [exact Hret|exact Hdoc].
Defined.

(** An input that is empty, or begins with a code unit no number can
    begin with, has no numeric prefix: [parseFloat] gives [NaN]. *)
Lemma parseFloat_not_numeric (c : ascii) (rest : string) :
  Number.numeric_start c = false ->
  Number.parseFloat (String c rest) = Number.NaN.
Proof.
  destruct c as [b0 b1 b2 b3 b4 b5 b6 b7].
  destruct b0, b1, b2, b3, b4, b5, b6, b7; intros H;
    solve [discriminate H | reflexivity].
Qed.

Lemma parseFloat_empty : Number.parseFloat "" = Number.NaN.
Proof. reflexivity. Qed.



(** C6, as stated, fails on its example: the body sent for the inputs
    23.3441, 85.3096 and 2.0 is not the text with [radius_km] written
    2.0. *)
Lemma analyzeLocation_body_is_not_claimed_text :
  body (analyze_request "23.3441" "85.3096" "2.0") <> payload_text "23.3441" "85.3096" "2.0".
Proof. vm_compute. discriminate. Qed.

(** C6, amended. [analyzeLocation] sends exactly one request, whatever
    the network answers: a POST to [API_URL] with the JSON content type,
    whose body is the object with the fields [latitude], [longitude] and
    [radius_km], each the JSON form of [parseFloat] of the input (its
    shortest decimal form when finite, [null] otherwise). For the inputs
    23.3441, 85.3096 and 2.0 the body has [radius_km] written 2, the
    form [JSON.stringify] gives the number 2.0. *)
Theorem analyzeLocation_posts_payload :
  (forall net latitude longitude radius w,
      sent (snd (analyzeLocation net latitude longitude radius w)) =
      (sent w ++
       [{| url := "http://127.0.0.1:5000/api/analyze";
           method := "POST";
           headers := [("Content-Type", "application/json")];
           body :=
             payload_text (stringify_number (Number.parseFloat latitude))
                          (stringify_number (Number.parseFloat longitude))
                          (stringify_number (Number.parseFloat radius)) |}])%list) /\
  (forall x, Number.is_finite x = true -> stringify_number x = Number.to_string x) /\
  (forall x, Number.is_finite x = false -> stringify_number x = "null") /\
  body (analyze_request "23.3441" "85.3096" "2.0") = payload_text "23.3441" "85.3096" "2" /\
  Number.parseFloat "2.0" = Number.parseFloat "2".
Proof.
  split; [|split; [|split; [|split]]].
  - intros net latitude longitude radius w.
    rewrite analyzeLocation_sends_once. unfold analyze_request, API_URL.
    now rewrite stringify_payload.
  - intros x Hx. unfold stringify_number. now rewrite Hx.
  - intros x Hx. unfold stringify_number. now rewrite Hx.
  - vm_compute. reflexivity.
  - vm_compute. reflexivity.
Qed.

Lemma analyzeLocation_posts_payload_witness :
  sent (snd (analyze_button_click server_error page_with_container)) =
    [{| url := "http://127.0.0.1:5000/api/analyze";
        method := "POST";
        headers := [("Content-Type", "application/json")];
        body := payload_text "23.3441" "85.3096" "2" |}] /\
  stringify_number (Number.parseFloat "Infinity") = "null".
Proof.
  destruct analyzeLocation_posts_payload as (Hsent & _ & Hnull & Hbody & _).
  split.
  - unfold analyze_button_click. rewrite Hsent. vm_compute. reflexivity.
  - apply Hnull. reflexivity.
Defined.

End AnalysisProperties.

(** * Further properties *)

(** ** The token store: what it touches and what it forgets *)
Section TokenStoreLaws.
Import Js Web TokenStore.

Lemma after_other_key (c : call) (ls : storage) (k : string) :
  k <> fra_token -> after c ls !! k = ls !! k.
Proof.
  intros Hk. destruct c as [v|]; simpl.
  - unfold setToken, setItem. destruct (ToString v); simpl; [|reflexivity].
    now apply lookup_insert_ne.
  - unfold removeItem. now apply lookup_delete_ne.
Qed.

Lemma run_other_key (calls : list call) (ls : storage) (k : string) :
  k <> fra_token -> run calls ls !! k = ls !! k.
Proof.
  intros Hk. revert ls. unfold run.
  induction calls as [|c calls IH]; intros ls; simpl; [reflexivity|].
  rewrite IH. now apply after_other_key.
Qed.

(** X1. Whatever sequence of [setToken] and [clearToken] calls is made,
    every other key of [localStorage] keeps the value it had: the hook
    writes and removes the key [fra_token] only. *)
Theorem token_store_touches_one_key (calls : list call) (ls : storage) (k : string) :
  k <> fra_token -> run calls ls !! k = ls !! k.
Proof.
  intros Hk. induction calls as [|c calls IH] using rev_ind; [reflexivity|].
  rewrite run_snoc, after_other_key by exact Hk. exact IH.
Qed.

Lemma token_store_touches_one_key_witness :
  run [CallSet (PString "t1"); CallClear; CallSet PNull; CallSet (PSymbol None)]
      {[ "theme" := "dark" ]} !! "theme" = Some "dark".
Proof.
  rewrite (token_store_touches_one_key _ _ "theme") by discriminate.
  reflexivity.
Defined.

(** X2. The store keeps no history: after a call that returns (a
    [clearToken], or a [setToken] whose argument has a string form), the
    storage area is what that call alone would have made of the initial
    area, whatever calls came before it. *)
Theorem token_store_keeps_no_history (before : list call) (c : call) (ls : storage) :
  stores c = true \/ is_clear c = true ->
  run (before ++ [c]) ls = after c ls.
Proof.
  intros Hc. unfold run. rewrite fold_left_app. simpl.
  fold (run before ls).
  apply map_eq. intros k.
  destruct (decide (k = fra_token)) as [->|Hk].
  - destruct c as [v|]; simpl in *.
    + unfold setToken, setItem. destruct (ToString v) as [s|e]; simpl.
      * now rewrite !lookup_insert_eq.
      * destruct Hc; discriminate.
    + unfold removeItem. now rewrite !lookup_delete_eq.
  - rewrite !after_other_key by exact Hk. now apply run_other_key.
Qed.

Lemma token_store_keeps_no_history_witness :
  run ([CallSet (PString "old"); CallClear; CallSet (PBoolean true)] ++ [CallSet (PString "new")])
      {[ "theme" := "dark" ]}
  = {[ "theme" := "dark"; "fra_token" := "new" ]} /\
  run ([CallSet (PString "old")] ++ [CallClear]) {[ "theme" := "dark" ]}
  = {[ "theme" := "dark" ]}.
Proof.
  split.
  - rewrite token_store_keeps_no_history by (left; reflexivity).
    vm_compute. reflexivity.
  - rewrite token_store_keeps_no_history by (right; reflexivity).
    vm_compute. reflexivity.
Defined.

End TokenStoreLaws.

(** ** The interceptor: repeated runs, configs without headers *)
Section InterceptorLaws.
Import Js Web ApiClient Samples.

Lemma state_eta (st : state) :
  {| objects := objects st; localStorage := localStorage st |} = st.
Proof. now destruct st. Qed.

(** X4. With a truthy token stored, a config that has no headers object
    (the config is [undefined] or [null], or its [headers] property is
    missing, [undefined], [null] or a primitive) makes the interceptor
    throw: the assignment to [config.headers.Authorization] raises a
    [TypeError], nothing is returned, and the heap and [localStorage]
    are as they were. *)
Theorem interceptor_without_headers_throws (config : val) (st : state) :
  truthy (getItem "fra_token" (localStorage st)) = true ->
  config_headers config (objects st) = None ->
  request_interceptor config st = (Throw TypeError, st).
Proof.
  intros Htok Hnone. unfold request_interceptor. rewrite Htok.
  unfold config_headers in Hnone.
  destruct (get_property config "headers" (objects st)) as [hd|e] eqn:Hget.
  - destruct hd as [p|l]; simpl.
    + now rewrite state_eta.
    + destruct (objects st !! l) eqn:Hl; [discriminate|]. now rewrite state_eta.
  - unfold get_property in Hget.
    destruct config as [[]|c]; try discriminate; try (injection Hget as <-; reflexivity).
    destruct (objects st !! c); [discriminate|]. now injection Hget as <-.
Qed.

Lemma interceptor_without_headers_throws_witness :
  request_interceptor (Ref 2) sample_logged_in = (Throw TypeError, sample_logged_in) /\
  request_interceptor (Prim PUndefined) sample_logged_in
  = (Throw TypeError, sample_logged_in).
Proof.
  split.
  - apply (interceptor_without_headers_throws (Ref 2) sample_logged_in);
      vm_compute; reflexivity.
  - apply (interceptor_without_headers_throws (Prim PUndefined) sample_logged_in);
      vm_compute; reflexivity.
Defined.

(** X5. Running the interceptor a second time on the config it returned
    changes nothing more: the state after two runs is the state after
    one, and the config is returned both times. *)
Theorem interceptor_idempotent (config : val) (st : state) (hl : loc) :
  config_headers config (objects st) = Some hl ->
  request_interceptor config (snd (request_interceptor config st))
  = request_interceptor config st.
Proof.
  intros Hwf.
  destruct (truthy (getItem "fra_token" (localStorage st))) eqn:Htruthy.
  - destruct (getItem "fra_token" (localStorage st)) as [T|] eqn:Htok; [|discriminate].
    assert (Hne : T <> "") by (intros ->; discriminate).
    destruct (config_headers_inv _ _ _ Hwf) as (c & co & ho & -> & Hc & Hh & Hl).
    rewrite (request_interceptor_token _ _ _ _ _ Hwf Hl Htok Hne). cbn [snd].
    pose proof (config_headers_after (Ref c) (objects st) hl ho
                  (Prim (PString ("Bearer " +:+ T))) Hwf Hl) as Hwf'.
    rewrite (request_interceptor_token (Ref c) _ hl
               (<["Authorization" := Prim (PString ("Bearer " +:+ T))]> ho) T);
      cbn [objects localStorage]; try assumption.
    + now rewrite insert_insert_eq, insert_insert_eq.
    + apply lookup_insert_eq.
  - now rewrite !(request_interceptor_no_token _ _ Htruthy).
Qed.

Lemma interceptor_idempotent_witness :
  request_interceptor (Ref 1) (snd (request_interceptor (Ref 1) sample_logged_in))
  = request_interceptor (Ref 1) sample_logged_in.
Proof.
  apply (interceptor_idempotent (Ref 1) sample_logged_in 2). vm_compute. reflexivity.
Defined.

End InterceptorLaws.

(** ** The hook and the interceptor together *)
Section AuthFlowLaws.
Import Js Web TokenStore ApiClient AuthFlow Samples.

(** X6. What [setToken] stored is what the next request carries: after
    [setToken(v)] for a [v] whose string form [s] is not empty, the
    interceptor sets [Authorization] to [Bearer s]. The string form is
    taken as it is: after [setToken(null)] the header is the text
    Bearer null. *)
Theorem setToken_then_request (v : prim) (s : string) (config : val) (st : state) (hl : loc) :
  ToString v = Normal s ->
  s <> "" ->
  config_headers config (objects st) = Some hl ->
  fst (request_interceptor config (login v st)) = Normal config /\
  header "Authorization" config (objects (snd (request_interceptor config (login v st))))
  = Some (Prim (PString ("Bearer " +:+ s))).
Proof.
  intros Hs Hne Hwf.
  destruct (config_headers_inv _ _ _ Hwf) as (c & co & ho & -> & Hc & Hh & Hl).
  assert (Htok : getItem "fra_token" (localStorage (login v st)) = Some s).
  { unfold login, with_storage. cbn [localStorage].
    unfold setToken, setItem. rewrite Hs. cbn [snd]. apply lookup_insert_eq. }
  rewrite (request_interceptor_token (Ref c) (login v st) hl ho s Hwf Hl Htok Hne).
  cbn [fst snd objects]. split; [reflexivity|].
  now apply header_after_token.
Qed.

Lemma setToken_then_request_witness :
  header "Authorization" (Ref 1)
         (objects (snd (request_interceptor (Ref 1) (login PNull sample_logged_out))))
  = Some (Prim (PString "Bearer null")) /\
  header "Authorization" (Ref 1)
         (objects (snd (request_interceptor (Ref 1) (login PUndefined sample_logged_in))))
  = Some (Prim (PString "Bearer undefined")).
Proof.
  split.
  - apply (setToken_then_request PNull "null" (Ref 1) sample_logged_out 2);
      [reflexivity | discriminate | vm_compute; reflexivity].
  - apply (setToken_then_request PUndefined "undefined" (Ref 1) sample_logged_in 2);
      [reflexivity | discriminate | vm_compute; reflexivity].
Defined.

(** X7. After [clearToken()] the interceptor returns every config
    untouched, whatever token was stored before and whatever the config
    is: the request goes out with the headers it was issued with. *)
Theorem clearToken_then_request (config : val) (st : state) :
  request_interceptor config (logout st) = (Normal config, logout st).
Proof.
  apply request_interceptor_no_token.
  unfold logout, with_storage. cbn [localStorage].
  unfold clearToken, removeItem, getItem. cbn [snd].
  unfold fra_token. now rewrite lookup_delete_eq.
Qed.

(** X8. An empty token is stored but counts as no token: after
    [setToken("")], [getToken()] returns the empty string, and the
    interceptor returns every config untouched (no header
    [Authorization: Bearer ] is sent). *)
Theorem empty_token_sends_no_header (config : val) (st : state) :
  getToken (localStorage (login (PString "") st)) = Some "" /\
  request_interceptor config (login (PString "") st)
  = (Normal config, login (PString "") st).
Proof.
  assert (Htok : getItem "fra_token" (localStorage (login (PString "") st)) = Some "").
  { unfold login, with_storage. cbn [localStorage snd setToken setItem ToString].
    apply lookup_insert_eq. }
  split; [exact Htok|].
  apply request_interceptor_no_token. now rewrite Htok.
Qed.

End AuthFlowLaws.

(** ** The render step: when it throws, what it writes, what it leaves *)
Section RenderLaws.
Import Js Json Web Analysis Samples Shape.

Lemma get_has_properties (v : option json) (k : string) :
  get v k = if has_properties v then Normal (prop v k) else Throw TypeError.
Proof. destruct v as [[]|]; reflexivity. Qed.

Lemma call_map_list_item (v : option json) :
  call_map v list_item =
  if is_array v && forallb printable (array_items v)
  then Normal (map (fun action => "<li>" +:+ print action +:+ "</li>") (array_items v))
  else Throw TypeError.
Proof.
  destruct v as [[ | | | |items|]|]; try reflexivity.
  cbn [call_map is_array array_items andb]. apply map_list_item_printable.
Qed.

(** With the container present, [displayResults] is decided by the
    shape of the body. *)
Lemma displayResults_present (data : option json) (w : world) (el : element) :
  doc w !! results_container = Some el ->
  displayResults data w =
  if renderable data then (Normal tt, after_render (rendered data) w)
  else (Throw TypeError, w).
Proof.
  intros Hel. unfold displayResults, bind, getElementById, lift, renderable, rendered.
  rewrite Hel. cbv beta iota. rewrite (get_has_properties data "fra_analysis").
  destruct (has_properties data) eqn:Hdata; [|reflexivity]. cbn [andb]. cbv beta iota.
  rewrite (get_has_properties (prop data "fra_analysis") "overall_suitability").
  destruct (has_properties (prop data "fra_analysis")) eqn:Hfra; [|reflexivity].
  cbn [andb]. cbv beta iota.
  rewrite (subst_printable (prop (prop data "fra_analysis") "overall_suitability")).
  destruct (printable_value (prop (prop data "fra_analysis") "overall_suitability")).
  2:{ now rewrite !andb_false_r. }
  cbv beta iota.
  rewrite (get_has_properties (prop data "fra_analysis") "total_score"), Hfra.
  cbv beta iota.
  rewrite (subst_printable (prop (prop data "fra_analysis") "total_score")).
  destruct (printable_value (prop (prop data "fra_analysis") "total_score")).
  2:{ now rewrite !andb_false_r. }
  cbv beta iota.
  rewrite (get_has_properties data "recommendations"), Hdata. cbv beta iota.
  rewrite (get_has_properties (prop data "recommendations") "immediate_actions").
  destruct (has_properties (prop data "recommendations")); [|reflexivity].
  cbn [andb]. cbv beta iota. rewrite call_map_list_item.
  destruct (is_array (prop (prop data "recommendations") "immediate_actions"));
    [|reflexivity].
  cbn [andb].
  destruct (forallb printable _); reflexivity.
Qed.

(** X9. With the container present, [displayResults] throws exactly
    when the body is [null] or [undefined], or its [fra_analysis] or
    [recommendations] is missing or [null], or
    [recommendations.immediate_actions] is not an array, or one of the
    values to print ([overall_suitability], [total_score], an action) is
    an object with an own property [toString] (or an array holding one);
    the throw is a [TypeError] and nothing has been written. Otherwise
    it writes the template once, with the text undefined for a missing
    [overall_suitability] or [total_score]. *)
Theorem displayResults_throws_iff (data : option json) (w : world) (el : element) :
  doc w !! results_container = Some el ->
  (renderable data = false -> displayResults data w = (Throw TypeError, w)) /\
  (renderable data = true ->
   displayResults data w = (Normal tt, after_render (rendered data) w)).
Proof.
  intros Hel. rewrite (displayResults_present data w el Hel).
  split; intros ->; reflexivity.
Qed.

Lemma displayResults_throws_iff_witness :
  displayResults (Some (JObject [("fra_analysis", JObject []);
                                 ("recommendations",
                                  JObject [("immediate_actions", JString "none")])]))
                 page_with_container
  = (Throw TypeError, page_with_container) /\
  displayResults
    (Some (JObject [("fra_analysis",
                     JObject [("overall_suitability",
                               JObject [("toString", JString "High")])]);
                    ("recommendations", JObject [("immediate_actions", JArray [])])]))
    page_with_container
  = (Throw TypeError, page_with_container) /\
  displayResults (Some (JObject [("fra_analysis", JNumber (Number.parseFloat "1"));
                                 ("recommendations",
                                  JObject [("immediate_actions", JArray [])])]))
                 page_with_container
  = (Normal tt,
     after_render (results_html "undefined" "undefined" "") page_with_container).
Proof.
  split; [|split].
  - destruct (displayResults_throws_iff
                (Some (JObject [("fra_analysis", JObject []);
                                ("recommendations",
                                 JObject [("immediate_actions", JString "none")])]))
                page_with_container {| innerHTML := "" |} eq_refl) as [Hthrow _].
    exact (Hthrow eq_refl).
  - destruct (displayResults_throws_iff
                (Some (JObject [("fra_analysis",
                                 JObject [("overall_suitability",
                                           JObject [("toString", JString "High")])]);
                                ("recommendations",
                                 JObject [("immediate_actions", JArray [])])]))
                page_with_container {| innerHTML := "" |} eq_refl) as [Hthrow _].
    exact (Hthrow eq_refl).
  - destruct (displayResults_throws_iff
                (Some (JObject [("fra_analysis", JNumber (Number.parseFloat "1"));
                                ("recommendations",
                                 JObject [("immediate_actions", JArray [])])]))
                page_with_container {| innerHTML := "" |} eq_refl) as [_ Hwrite].
    rewrite (Hwrite eq_refl). vm_compute. reflexivity.
Defined.

Lemma after_render_twice (html : string) (w : world) :
  after_render html (after_render html w) = after_render html w.
Proof.
  unfold after_render. cbn [doc console sent]. now rewrite insert_insert_eq.
Qed.

(** X11. Rendering replaces, it does not append: calling
    [displayResults] again with the same body on the page it left gives
    the same completion and the same page as the first call. *)
Theorem displayResults_idempotent (data : option json) (w : world) :
  displayResults data (snd (displayResults data w)) = displayResults data w.
Proof.
  destruct (doc w !! results_container) as [el|] eqn:Hel.
  - rewrite (displayResults_present data w el Hel).
    destruct (renderable data) eqn:Hr; cbn [snd].
    + rewrite (displayResults_present data (after_render (rendered data) w)
                 {| innerHTML := rendered data |}).
      * rewrite Hr. now rewrite after_render_twice.
      * cbn [after_render doc]. apply lookup_insert_eq.
    + rewrite (displayResults_present data w el Hel). now rewrite Hr.
  - unfold displayResults, bind, getElementById. rewrite Hel. cbn [snd ret].
    now rewrite Hel.
Qed.

Lemma strings_printable (actions : list string) :
  forallb printable (map JString actions) = true.
Proof. induction actions as [|a rest IH]; [reflexivity|exact IH]. Qed.

(** X12. Strings of the response go into the page as they are, with no
    escaping: for a body of the expected shape with string leaves, the
    text written to [innerHTML] is the template with the two strings
    substituted verbatim and each action wrapped in [<li>] and [</li>],
    whatever characters the strings contain. *)
Theorem displayResults_inserts_verbatim
        (suitability score : string) (actions : list string) (w : world) (el : element) :
  doc w !! results_container = Some el ->
  displayResults (Some (analysis_body suitability score actions)) w =
  (Normal tt,
   after_render
     (results_html suitability score
        (Str.concat_all (map (fun s => "<li>" +:+ s +:+ "</li>") actions)))
     w).
Proof.
  intros Hel. rewrite (displayResults_present _ w el Hel).
  change (renderable (Some (analysis_body suitability score actions)))
    with (forallb printable (map JString actions)).
  rewrite strings_printable.
  change (rendered (Some (analysis_body suitability score actions)))
    with (results_html suitability score
            (Str.concat_all
               (map (fun action => "<li>" +:+ print action +:+ "</li>")
                    (map JString actions)))).
  now rewrite map_map.
Qed.

Lemma displayResults_inserts_verbatim_witness :
  doc (snd (displayResults
              (Some (analysis_body "<b>High</b>" "87" ["<img src=x onerror=alert(1)>"]))
              page_with_container)) !! results_container
  = Some {| innerHTML :=
              results_html "<b>High</b>" "87" "<li><img src=x onerror=alert(1)></li>" |}.
Proof.
  rewrite (displayResults_inserts_verbatim "<b>High</b>" "87"
             ["<img src=x onerror=alert(1)>"] page_with_container {| innerHTML := "" |})
    by reflexivity.
  cbn [snd after_render doc]. rewrite lookup_insert_eq. reflexivity.
Defined.

End RenderLaws.

(** ** [analyzeLocation]: every way a run can end *)
Section AnalysisLaws.
Import Js Json Web Analysis Samples Shape.

(** X13. When [fetch] itself rejects (the network is down, the request
    is blocked), [analyzeLocation] catches the rejection and writes it
    with [console.error]: the call completes normally, the document is
    as before, that entry is the only new one on the console, and the
    one request is the only one sent. *)
Theorem analyzeLocation_network_failure net latitude longitude radius w e :
  net (analyze_request latitude longitude radius) = Throw e ->
  fst (analyzeLocation net latitude longitude radius w) = Normal tt /\
  doc (snd (analyzeLocation net latitude longitude radius w)) = doc w /\
  console (snd (analyzeLocation net latitude longitude radius w)) =
    (console w ++ [{| entry_level := LevelError; entry_args := catch_args e |}])%list /\
  sent (snd (analyzeLocation net latitude longitude radius w)) =
    (sent w ++ [analyze_request latitude longitude radius])%list.
Proof.
  intros Hnet. rewrite (analyzeLocation_fetch_rejected _ _ _ _ _ _ Hnet).
  repeat split.
Qed.

Lemma analyzeLocation_network_failure_witness :
  analyzeLocation (fun _ => Throw TypeError) "23.3441" "85.3096" "2.0" page_with_container
  = (Normal tt,
     {| doc := doc page_with_container;
        console := [{| entry_level := LevelError; entry_args := catch_args TypeError |}];
        sent := [analyze_request "23.3441" "85.3096" "2.0"] |}).
Proof.
  destruct (analyzeLocation_network_failure (fun _ => Throw TypeError)
              "23.3441" "85.3096" "2.0" page_with_container TypeError eq_refl)
    as (Hret & Hdoc & Hconsole & Hsent).
  destruct (analyzeLocation _ _ _ _ _) as [c w']. cbn [fst snd] in *.
  destruct w'. cbn [doc console sent] in *. now subst.
Defined.

(** X14. When the response is 2xx but its body is not JSON,
    [response.json()] rejects and [analyzeLocation] catches that too:
    the rejection is the only thing written to the console (the response
    is never logged), the document is as before, and the call completes
    normally. *)
Theorem analyzeLocation_body_not_json net latitude longitude radius w r e :
  net (analyze_request latitude longitude radius) = Normal r ->
  ok r = true ->
  json_body r = Throw e ->
  fst (analyzeLocation net latitude longitude radius w) = Normal tt /\
  doc (snd (analyzeLocation net latitude longitude radius w)) = doc w /\
  console (snd (analyzeLocation net latitude longitude radius w)) =
    (console w ++ [{| entry_level := LevelError; entry_args := catch_args e |}])%list /\
  sent (snd (analyzeLocation net latitude longitude radius w)) =
    (sent w ++ [analyze_request latitude longitude radius])%list.
Proof.
  intros Hnet Hok Hbody.
  rewrite (analyzeLocation_body_rejected _ _ _ _ _ _ _ Hnet Hok Hbody).
  repeat split.
Qed.

Lemma analyzeLocation_body_not_json_witness :
  console (snd (analyzeLocation
                  (fun _ => Normal {| status := 204; json_body := Throw SyntaxError |})
                  "23.3441" "85.3096" "2.0" page_with_container))
  = [{| entry_level := LevelError; entry_args := catch_args SyntaxError |}].
Proof.
  destruct (analyzeLocation_body_not_json
              (fun _ => Normal {| status := 204; json_body := Throw SyntaxError |})
              "23.3441" "85.3096" "2.0" page_with_container
              {| status := 204; json_body := Throw SyntaxError |} SyntaxError
              eq_refl eq_refl eq_refl) as (_ & _ & Hconsole & _).
  exact Hconsole.
Defined.

(** X15. On a 2xx response with a JSON body, the run ends in one of two
    ways. Without the container the response is logged and nothing else
    happens. With the container and a renderable body (the shape the
    template reads, with values that convert to strings) the response is
    logged and the template is written; the console has no error
    entry. *)
Theorem analyzeLocation_success net latitude longitude radius w r data :
  net (analyze_request latitude longitude radius) = Normal r ->
  ok r = true ->
  json_body r = Normal data ->
  (doc w !! results_container = None ->
   analyzeLocation net latitude longitude radius w =
   (Normal tt, before_render (analyze_request latitude longitude radius) data w)) /\
  (forall el,
      doc w !! results_container = Some el ->
      renderable (Some data) = true ->
      analyzeLocation net latitude longitude radius w =
      (Normal tt,
       after_render (rendered (Some data))
         (before_render (analyze_request latitude longitude radius) data w))).
Proof.
  intros Hnet Hok Hbody.
  rewrite (analyzeLocation_renders _ _ _ _ _ _ _ Hnet Hok Hbody).
  split.
  - intros Hnone.
    assert (H : displayResults (Some data)
                  (before_render (analyze_request latitude longitude radius) data w)
                = (Normal tt,
                   before_render (analyze_request latitude longitude radius) data w)).
    { unfold displayResults, bind, getElementById. cbn [before_render after_console
        after_fetch doc]. now rewrite Hnone. }
    now rewrite H.
  - intros el Hel Hr.
    rewrite (displayResults_present (Some data) _ el) by exact Hel.
    now rewrite Hr.
Qed.

Lemma analyzeLocation_success_witness :
  analyzeLocation server_complete "23.3441" "85.3096" "2.0" page_without_container
  = (Normal tt,
     before_render (analyze_request "23.3441" "85.3096" "2.0") body_complete
       page_without_container) /\
  doc (snd (analyzeLocation server_complete "23.3441" "85.3096" "2.0" page_with_container))
    !! results_container
  = Some {| innerHTML := rendered (Some body_complete) |}.
Proof.
  destruct (analyzeLocation_success server_complete "23.3441" "85.3096" "2.0"
              page_without_container
              {| status := 200; json_body := Normal body_complete |} body_complete
              eq_refl eq_refl eq_refl) as [Hnone _].
  destruct (analyzeLocation_success server_complete "23.3441" "85.3096" "2.0"
              page_with_container
              {| status := 200; json_body := Normal body_complete |} body_complete
              eq_refl eq_refl eq_refl) as [_ Hsome].
  split.
  - exact (Hnone eq_refl).
  - rewrite (Hsome {| innerHTML := "" |} eq_refl eq_refl).
    cbn [snd after_render doc]. apply lookup_insert_eq.
Defined.

(** The outcome of a run, by cases: what was written to the console,
    and whether the container was written. *)
Lemma analyzeLocation_outcome net latitude longitude radius w :
  let req := analyze_request latitude longitude radius in
  (exists e,
      analyzeLocation net latitude longitude radius w =
      (Normal tt, after_console LevelError (catch_args e) (after_fetch req w))) \/
  (exists data,
      analyzeLocation net latitude longitude radius w =
      (Normal tt, before_render req data w)) \/
  (exists data e,
      analyzeLocation net latitude longitude radius w =
      (Normal tt, after_console LevelError (catch_args e) (before_render req data w))) \/
  (exists r data,
      net req = Normal r /\ ok r = true /\ json_body r = Normal data /\
      is_Some (doc w !! results_container) /\ renderable (Some data) = true /\
      analyzeLocation net latitude longitude radius w =
      (Normal tt, after_render (rendered (Some data)) (before_render req data w))).
Proof.
  intros req. subst req.
  destruct (net (analyze_request latitude longitude radius)) as [r|e] eqn:Hnet.
  - destruct (ok r) eqn:Hok.
    + destruct (json_body r) as [data|e] eqn:Hbody.
      * rewrite (analyzeLocation_renders _ _ _ _ _ _ _ Hnet Hok Hbody).
        destruct (doc w !! results_container) as [el|] eqn:Hel.
        -- rewrite (displayResults_present (Some data) _ el) by exact Hel.
           destruct (renderable (Some data)) eqn:Hr.
           ++ right. right. right. exists r, data. repeat split; eauto.
           ++ right. right. left. now exists data, TypeError.
        -- right. left. exists data.
           unfold displayResults, bind, getElementById.
           cbn [before_render after_console after_fetch doc]. now rewrite Hel.
      * left. exists e. apply (analyzeLocation_body_rejected _ _ _ _ _ r e Hnet Hok Hbody).
    + left. eexists. apply (analyzeLocation_not_ok _ _ _ _ _ r Hnet Hok).
  - left. exists e. now apply analyzeLocation_fetch_rejected.
Qed.


(** X17. [analyzeLocation] changes the document only on the success
    path: either the document is as before, or the response was 2xx
    with a renderable JSON body, the container existed, and the only
    change is the container's new [innerHTML]. *)
Theorem analyzeLocation_dom_change net latitude longitude radius w :
  doc (snd (analyzeLocation net latitude longitude radius w)) = doc w \/
  exists r data,
    net (analyze_request latitude longitude radius) = Normal r /\
    ok r = true /\
    json_body r = Normal data /\
    is_Some (doc w !! results_container) /\
    renderable (Some data) = true /\
    doc (snd (analyzeLocation net latitude longitude radius w))
    = <[results_container := {| innerHTML := rendered (Some data) |}]> (doc w).
Proof.
  destruct (analyzeLocation_outcome net latitude longitude radius w)
    as [[e H]|[[data H]|[(data & e & H)|(r & data & Hnet & Hok & Hbody & Hel & Hr & H)]]];
    rewrite H; cbn [snd]; [now left|now left|now left|].
  right. exists r, data. repeat split; assumption.
Qed.

End AnalysisLaws.

(** ** The request body: what the inputs can and cannot put into it *)
Section BodyLaws.
Import Js Json Web Analysis Samples Shape.

Lemma all_chars_app (P : ascii -> bool) (a b : string) :
  all_chars P (a +:+ b) = all_chars P a && all_chars P b.
Proof.
  induction a as [|c a IH]; [reflexivity|].
  change (P c && all_chars P (a +:+ b) = P c && all_chars P a && all_chars P b).
  rewrite IH. now rewrite andb_assoc.
Qed.

Lemma all_chars_weaken (P Q : ascii -> bool) (s : string) :
  (forall c, P c = true -> Q c = true) ->
  all_chars P s = true -> all_chars Q s = true.
Proof.
  intros HPQ. induction s as [|c s IH]; [reflexivity|].
  cbn [all_chars]. rewrite !andb_true_iff. intros [Hc Hs]. split; auto.
Qed.

Lemma digit_is_number_char (c : ascii) :
  Str.is_digit c = true -> number_char c = true.
Proof. intros H. unfold number_char. now rewrite H. Qed.

Lemma uint_digits (d : Decimal.uint) :
  all_chars Str.is_digit (NilEmpty.string_of_uint d) = true.
Proof. induction d; cbn [NilEmpty.string_of_uint all_chars]; try rewrite IHd; reflexivity. Qed.

Lemma dec_digits (n : N) : all_chars Str.is_digit (Str.dec n) = true.
Proof.
  unfold Str.dec, NilZero.string_of_uint.
  destruct (N.to_uint n) eqn:Hn; try reflexivity; rewrite <- Hn; apply uint_digits.
Qed.

Lemma repeat_char_chars (P : ascii -> bool) (c : ascii) (n : nat) :
  P c = true -> all_chars P (Str.repeat_char c n) = true.
Proof.
  intros Hc. induction n as [|n IH]; [reflexivity|].
  cbn [Str.repeat_char all_chars]. now rewrite Hc, IH.
Qed.

Lemma split_at_chars (P : ascii -> bool) (n : nat) (s : string) :
  all_chars P s = true ->
  all_chars P (fst (Str.split_at n s)) = true /\
  all_chars P (snd (Str.split_at n s)) = true.
Proof.
  revert s. induction n as [|n IH]; intros s Hs; [now split|].
  destruct s as [|c s]; [now split|].
  cbn [all_chars] in Hs. apply andb_true_iff in Hs as [Hc Hs].
  cbn [Str.split_at]. destruct (IH s Hs) as [Ha Hb].
  destruct (Str.split_at n s) as [a b]. cbn [fst snd all_chars] in *.
  now rewrite Hc, Ha.
Qed.

Lemma dec_number_chars (n : N) : all_chars number_char (Str.dec n) = true.
Proof.
  apply (all_chars_weaken Str.is_digit); [apply digit_is_number_char|apply dec_digits].
Qed.

Lemma layout_chars (s n k : Z) : all_chars number_char (Number.layout s n k) = true.
Proof.
  unfold Number.layout.
  pose proof (dec_number_chars (Z.to_N s)) as Hds.
  pose proof (dec_number_chars (Z.abs_N (n - 1))) as Hex.
  destruct ((k <=? n) && (n <=? 21)).
  { rewrite all_chars_app, Hds. now rewrite repeat_char_chars. }
  destruct ((0 <? n) && (n <=? 21)).
  { destruct (split_at_chars number_char (Z.to_nat n) _ Hds) as [Hi Hf].
    destruct (Str.split_at (Z.to_nat n) (Str.dec (Z.to_N s))) as [i f].
    cbn [fst snd] in *. rewrite !all_chars_app, Hi, Hf. reflexivity. }
  destruct ((-6 <? n) && (n <=? 0)).
  { rewrite !all_chars_app, Hds. now rewrite repeat_char_chars. }
  assert (Hsign : all_chars number_char (if 0 <=? n - 1 then "+" else "-") = true)
    by (destruct (0 <=? n - 1); reflexivity).
  destruct (k =? 1).
  { rewrite !all_chars_app, Hds, Hsign, Hex. reflexivity. }
  destruct (split_at_chars number_char 1 _ Hds) as [Hi Hf].
  destruct (Str.split_at 1 (Str.dec (Z.to_N s))) as [i f].
  cbn [fst snd] in *. rewrite !all_chars_app, Hi, Hf, Hsign, Hex. reflexivity.
Qed.

Lemma to_string_chars (x : Number.number) :
  Number.is_finite x = true -> all_chars number_char (Number.to_string x) = true.
Proof.
  destruct x as [sg|sg| |sg m e]; try discriminate; intros _; [reflexivity|].
  unfold Number.to_string.
  destruct (Number.shortest _ _ _ _ _) as [[s n'] k].
  rewrite all_chars_app, layout_chars. now destruct sg.
Qed.

Lemma stringify_number_field_text (x : Number.number) :
  field_text (stringify_number x) = true.
Proof.
  unfold stringify_number, field_text.
  destruct (Number.is_finite x) eqn:Hfin; [|reflexivity].
  rewrite (to_string_chars x Hfin). apply orb_true_r.
Qed.

(** X18. No input can inject text into the request body: whatever the
    three strings are, the body is the object with the three fields in
    their fixed order, and the text of each field is either [null] or
    made of digits, [.], [e], [+] and [-] only (no quote, comma, brace
    or letter of the input reaches the body). *)
Theorem analyzeLocation_body_shape (latitude longitude radius : string) :
  exists a b c,
    body (analyze_request latitude longitude radius) = payload_text a b c /\
    field_text a = true /\ field_text b = true /\ field_text c = true.
Proof.
  exists (stringify_number (Number.parseFloat latitude)),
         (stringify_number (Number.parseFloat longitude)),
         (stringify_number (Number.parseFloat radius)).
  split; [|repeat split; apply stringify_number_field_text].
  unfold analyze_request. cbn [body]. apply stringify_payload.
Qed.

End BodyLaws.

(** ** The page script: when a click reaches [analyzeLocation] *)
Section WiringLaws.
Import Js Json Web Analysis Samples Shape Wiring.

Lemma loaded_page_without_button net w :
  doc w !! analyze_button = None ->
  loaded_page net w = {| page_world := w; page_listeners := [ready_registration] |}.
Proof.
  intros Hnone. unfold loaded_page, dispatch.
  change (listeners_for TDocument "DOMContentLoaded" (script (fresh_page w)))
    with [OnDOMContentLoaded].
  cbn [fold_left run_listener script fresh_page addEventListener page_world].
  now rewrite Hnone.
Qed.

Lemma loaded_page_with_button net w el :
  doc w !! analyze_button = Some el ->
  loaded_page net w =
  {| page_world := w; page_listeners := [ready_registration; click_registration] |}.
Proof.
  intros Hel. unfold loaded_page, dispatch.
  change (listeners_for TDocument "DOMContentLoaded" (script (fresh_page w)))
    with [OnDOMContentLoaded].
  cbn [fold_left run_listener script fresh_page addEventListener page_world].
  now rewrite Hel.
Qed.

(** X19. When the document has no element [analyze-button] at the time
    it finishes loading, the script registers no click listener, and it
    never will: a later click on an element with that identifier, on
    whatever the page has become, runs nothing (no request, no log, no
    write). *)
Theorem no_button_no_listener net w :
  doc w !! analyze_button = None ->
  page_world (loaded_page net w) = w /\
  listeners_for (TElement analyze_button) "click" (loaded_page net w) = [] /\
  forall net' w',
    dispatch net' (TElement analyze_button) "click"
      {| page_world := w'; page_listeners := page_listeners (loaded_page net w) |}
    = {| page_world := w'; page_listeners := page_listeners (loaded_page net w) |}.
Proof.
  intros Hnone. rewrite (loaded_page_without_button net w Hnone).
  split; [reflexivity|]. split; [reflexivity|].
  intros net' w'. reflexivity.
Qed.

Lemma no_button_no_listener_witness :
  dispatch server_complete (TElement analyze_button) "click"
    {| page_world := page_with_container;
       page_listeners := page_listeners (loaded_page server_complete page_with_container) |}
  = {| page_world := page_with_container;
       page_listeners := page_listeners (loaded_page server_complete page_with_container) |}.
Proof.
  destruct (no_button_no_listener server_complete page_with_container eq_refl)
    as (_ & _ & Hclick).
  apply Hclick.
Defined.

(** X20. When the element [analyze-button] exists at that time, loading
    registers exactly one click listener and does nothing else; a click
    then runs [analyzeLocation] once with the three constants of the
    script, so exactly one request goes out, the POST of latitude
    23.3441, longitude 85.3096 and radius_km 2, whatever the network
    answers and whatever the page contains. *)
Theorem click_posts_the_constants net w el :
  doc w !! analyze_button = Some el ->
  page_world (loaded_page net w) = w /\
  listeners_for (TElement analyze_button) "click" (loaded_page net w) = [OnAnalyzeClick] /\
  forall net',
    page_world (dispatch net' (TElement analyze_button) "click" (loaded_page net w))
    = snd (analyze_button_click net' w) /\
    sent (page_world (dispatch net' (TElement analyze_button) "click" (loaded_page net w)))
    = (sent w ++
       [{| url := API_URL; method := "POST";
           headers := [("Content-Type", "application/json")];
           body := payload_text "23.3441" "85.3096" "2" |}])%list.
Proof.
  intros Hel. rewrite (loaded_page_with_button net w el Hel).
  split; [reflexivity|]. split; [reflexivity|].
  intros net'.
  assert (Hrun :
    page_world (dispatch net' (TElement analyze_button) "click"
                  {| page_world := w;
                     page_listeners := [ready_registration; click_registration] |})
    = snd (analyze_button_click net' w)) by reflexivity.
  split; [exact Hrun|].
  rewrite Hrun. unfold analyze_button_click.
  rewrite analyzeLocation_sends_once.
  assert (Hreq : analyze_request "23.3441" "85.3096" "2.0" =
                 {| url := API_URL; method := "POST";
                    headers := [("Content-Type", "application/json")];
                    body := payload_text "23.3441" "85.3096" "2" |})
    by (vm_compute; reflexivity).
  now rewrite Hreq.
Qed.

Lemma click_posts_the_constants_witness :
  sent (page_world
          (dispatch server_error (TElement analyze_button) "click"
             (loaded_page server_error page_with_button)))
  = [{| url := API_URL; method := "POST";
        headers := [("Content-Type", "application/json")];
        body := payload_text "23.3441" "85.3096" "2" |}].
Proof.
  assert (Hel : doc page_with_button !! analyze_button = Some {| innerHTML := "Analyze" |})
    by (vm_compute; reflexivity).
  destruct (click_posts_the_constants server_error page_with_button
              {| innerHTML := "Analyze" |} Hel) as (_ & _ & Hclick).
  destruct (Hclick server_error) as [_ Hsent]. exact Hsent.
Defined.

End WiringLaws.
